(** * The session registry and statistics loop of [engine.go]

    A shallow embedding of the [Engine] type of package [engine]: the
    two-level map from session id to client id to [*Client], the three
    registry operations ([AddClient], [DelClient], [RemoveClient]), one
    iteration of the [Stats] loop, and [GetStat].

    Every operation is a computation in a small monad that threads the
    engine, threads the state of the external [Client] objects, can panic
    the way Go does on a nil dereference, and records the calls the code
    makes on the mutex, on the clients, on the logger and on the clock. *)

From Stdlib Require Import ZArith Lia DecimalString.
From stdpp Require Import gmap strings list fin_maps.

Local Open Scope string_scope.
Local Open Scope list_scope.
Local Open Scope Z_scope.

(** ** Go's [int] *)

(** [int] is 64 bits wide on the platforms the package is built for;
    addition wraps around in two's complement. *)
Definition int_bits : Z := 64.

Definition int_wrap (z : Z) : Z :=
  (z + 2 ^ (int_bits - 1)) mod 2 ^ int_bits - 2 ^ (int_bits - 1).

Definition int_add (a b : Z) : Z := int_wrap (a + b).

Definition int_mul (a b : Z) : Z := int_wrap (a * b).

(** [fmt]'s verb [%d] on an [int]. *)
Definition fmt_d (z : Z) : string := NilZero.string_of_int (Z.to_int z).

Definition newline : string := String (Ascii.ascii_of_nat 10) EmptyString.

(** ** Data *)

(** Modelled from the spec: the [Client] struct is declared in another
    file of the package. The engine reads two of its fields, [sid] and
    [uid], and calls two of its methods, [Close] and [getBandWidth]. A
    value of this record is the pointee of a non-nil [*Client] as it is
    when an operation runs; [ptr] is the address, which tells two
    clients with equal fields apart. A [*Client] is an [option Client],
    [None] being [nil]. *)
Record Client := mkClient { ptr : nat; sid : string; uid : string }.

#[global] Instance Client_eq_dec : EqDecision Client.
Proof. solve_decision. Defined.

Module stat.
Record t := mk { clients : Z; totalRecvBW : Z; totalSendBW : Z }.
End stat.

(** Errors returned by the registry. [errInvalidSessID] is a package
    variable declared in another file; [Errorf] is a value built by
    [fmt.Errorf]. A Go [error] is an [option error], [None] being [nil]. *)
Inductive error :=
| errInvalidSessID
| Errorf (msg : string).

#[global] Instance error_eq_dec : EqDecision error.
Proof. solve_decision. Defined.

(** Run-time panics the operations can raise. *)
Inductive panic :=
| nil_dereference
| nil_map_assignment.

(** What an operation is seen to do from outside: calls on the embedded
    [sync.RWMutex], on a client, on the package logger and on the clock.
    A [call_getBandWidth] event carries the interval passed and the two
    figures the client returned. *)
Inductive event :=
| Lock
| Unlock
| RLock
| RUnlock
| call_Close (c : Client)
| call_getBandWidth (c : Client) (cycle : Z) (recvBW sendBW : Z)
| log_Errorf (msg : string)
| log_Infof (msg : string)
| time_Sleep (nanoseconds : Z).

#[global] Instance event_eq_dec : EqDecision event.
Proof. solve_decision. Defined.

Inductive outcome (A : Type) :=
| Returned (a : A)
| Panicked (p : panic).
Arguments Returned {A} a.
Arguments Panicked {A} p.

(** How one turn of the [for] loop of [Stats] ends. *)
Inductive loop_step :=
| Return (s : string)
| Continue.

(** The registry of the aggregation example: sessions A and B, the
    first with two clients and the second with one, and the figures the
    three clients report. *)
Definition example_c1 : Client := mkClient 1 "A" "c1".
Definition example_c2 : Client := mkClient 2 "A" "c2".
Definition example_c3 : Client := mkClient 3 "B" "c3".

Definition example_clients : gmap string (gmap string (option Client)) :=
  {[ "A" := {[ "c1" := Some example_c1; "c2" := Some example_c2 ]};
     "B" := {[ "c3" := Some example_c3 ]} ]}.

Definition example_sample (c : Client) : Z * Z :=
  match ptr c with
  | 1%nat => (10, 5)
  | 2%nat => (20, 15)
  | _ => (0, 0)
  end.

(** Clients for the examples: their state is the list of the clients
    closed so far, latest first; a client reports the figures of
    [example_sample] whatever the interval; maps are visited in the
    order of [map_to_list]. *)
Definition example_getBandWidth (c : Client) (cycle : Z) (w : list Client)
  : Z * Z * list Client :=
  (example_sample c, w).

Definition example_Close (c : Client) (w : list Client) : list Client := c :: w.

Definition example_range (V : Type) (m : gmap string V) : list (string * V) :=
  map_to_list m.

(** A client of session A under a key the example registry does not
    bind, and a [close] channel that is ready from the third turn on. *)
Definition example_c9 : Client := mkClient 9 "A" "c9".

Definition example_close (i : nat) : bool := Nat.leb 2 i.

(** A registry with a nil entry under the key of [example_c1], beside
    the second client of session A. *)
Definition nil_beside_client_clients : gmap string (gmap string (option Client)) :=
  {[ "A" := {[ "c1" := None; "c2" := Some example_c2 ]} ]}.

Section Engine.

(** [Config] is declared in another file and is only stored. [World] is
    the state of the client objects, which belongs to the [Client] code;
    the two methods the engine calls act on it. *)
Context {Config World : Type}.
Variable getBandWidth : Client → Z → World → Z * Z * World.
Variable Close : Client → World → World.

(** Go visits the entries of a map in an order it does not specify:
    [range] is the enumeration a run happens to get. *)
Variable range : ∀ V : Type, gmap string V → list (string * V).

(** The embedded [sync.RWMutex] has no field here: the calls made on it
    are events. An inner map is held by value: [AddClient] is the only
    writer of the outer map and stores a map made on the spot, so no
    inner map is nil or shared between two sessions; an absent session
    is what [e.clients[sid] == nil] tests. *)
Record Engine := mkEngine {
  cfg : Config;
  clients : gmap string (gmap string (option Client));
  stats : stat.t
}.

Definition set_clients (m : gmap string (gmap string (option Client)))
  (e : Engine) : Engine :=
  mkEngine (cfg e) m (stats e).

(** ** The monad *)

Record run (A : Type) := mkRun {
  out : outcome A;
  engine : Engine;
  world : World;
  events : list event
}.
Arguments mkRun {A} out engine world events.
Arguments out {A} r.
Arguments engine {A} r.
Arguments world {A} r.
Arguments events {A} r.

Definition M (A : Type) : Type := Engine → World → run A.

Definition ret {A} (a : A) : M A := λ e w, mkRun (Returned a) e w [].

Definition bind {A B} (m : M A) (f : A → M B) : M B := λ e w,
  match m e w with
  | mkRun (Returned a) e1 w1 tr1 =>
      match f a e1 w1 with
      | mkRun o e2 w2 tr2 => mkRun o e2 w2 (tr1 ++ tr2)
      end
  | mkRun (Panicked p) e1 w1 tr1 => mkRun (Panicked p) e1 w1 tr1
  end.

Definition emit (ev : event) : M unit := λ e w, mkRun (Returned tt) e w [ev].

Definition raise {A} (p : panic) : M A := λ e w, mkRun (Panicked p) e w [].

Definition get : M Engine := λ e w, mkRun (Returned e) e w [].

Definition put (e' : Engine) : M unit := λ _ w, mkRun (Returned tt) e' w [].

(** [defer d; body]: [d] runs when [body] is left, by return or by panic. *)
Definition defer {A} (d : M unit) (body : M A) : M A := λ e w,
  match body e w with
  | mkRun o e1 w1 tr1 =>
      match d e1 w1 with
      | mkRun _ e2 w2 tr2 => mkRun o e2 w2 (tr1 ++ tr2)
      end
  end.

(** The same run with a trace put before or after its own. *)
Definition prefix {A} (tr : list event) (r : run A) : run A :=
  match r with
  | mkRun o e w tr' => mkRun o e w (tr ++ tr')
  end.

Definition suffix {A} (r : run A) (tr : list event) : run A :=
  match r with
  | mkRun o e w tr' => mkRun o e w (tr' ++ tr)
  end.

#[global] Instance M_ret : MRet M := @ret.
#[global] Instance M_bind : MBind M := λ A B f m, bind m f.

(** [c.sid] and [c.uid] on a [*Client]: a nil pointer panics. *)
Definition field {A} (f : Client → A) (c : option Client) : M A :=
  match c with
  | Some x => ret (f x)
  | None => raise nil_dereference
  end.

(** [c.Close()] and [c.getBandWidth(cycle)] on a non-nil client. Both
    methods belong to the [Client] code and are taken to return: a call
    that panics or never returns is not a run of this model. *)
Definition do_Close (c : Client) : M unit := λ e w,
  mkRun (Returned tt) e (Close c w) [call_Close c].

Definition do_getBandWidth (c : Client) (cycle : Z) : M (Z * Z) := λ e w,
  let '(recvBW, sendBW, w') := getBandWidth c cycle w in
  mkRun (Returned (recvBW, sendBW)) e w' [call_getBandWidth c cycle recvBW sendBW].

(** A [for ... range] loop whose body updates the local variables [s]. *)
Fixpoint for_range {A S} (l : list A) (body : A → S → M S) (s : S) : M S :=
  match l with
  | [] => ret s
  | x :: l' => s' ← body x s; for_range l' body s'
  end.

(** ** The operations *)

Definition NewEngine (cfg : Config) : Engine :=
  mkEngine cfg ∅ (stat.mk 0 0 0).

(** [e.clients[sid][uid]] in the comma-ok form: the stored pointer and
    whether the key is there. *)
Definition lookup_client (e : Engine) (sid uid : string) : option Client * bool :=
  match clients e !! sid with
  | Some m =>
      match m !! uid with
      | Some c => (c, true)
      | None => (None, false)
      end
  | None => (None, false)
  end.

(** [e.clients[sid][uid] = c]; assigning into a nil map panics. *)
Definition assign_client (sid uid : string) (c : option Client) : M unit :=
  e ← get;
  match clients e !! sid with
  | Some m => put (set_clients (<[sid := <[uid := c]> m]> (clients e)) e)
  | None => raise nil_map_assignment
  end.

(** [delete(e.clients[sid], uid)]; deleting from a nil map does nothing. *)
Definition delete_client (sid uid : string) : M unit :=
  e ← get;
  put (set_clients (alter (delete uid) sid (clients e)) e).

Definition AddClient (c : option Client) : M (option error) :=
  emit Lock ;;
  defer (emit Unlock) (
    s ← field sid c;
    e ← get;
    (if decide (clients e !! s = None)
     then put (set_clients (<[s := ∅]> (clients e)) e)
     else ret tt) ;;
    s ← field sid c;
    u ← field uid c;
    assign_client s u c ;;
    match c with
    | None =>
        let err := Errorf "client is nil" in
        emit (log_Errorf "client is nil") ;;
        ret (Some err)
    | Some _ => ret None
    end).

Definition DelClient (c : option Client) : M (option error) :=
  emit Lock ;;
  s ← field sid c;
  e ← get;
  if decide (clients e !! s = None) then
    emit Unlock ;;
    ret (Some errInvalidSessID)
  else
    s ← field sid c;
    u ← field uid c;
    e ← get;
    (match lookup_client e s u with
     | (Some c', true) =>
         (* the inner [c] of the source shadows the argument *)
         s' ← field sid (Some c');
         u' ← field uid (Some c');
         delete_client s' u' ;;
         emit Unlock ;;
         do_Close c'
     | _ => emit Unlock
     end) ;;
    ret None.

Definition RemoveClient (c : option Client) : M (option error) :=
  emit Lock ;;
  defer (emit Unlock) (
    s ← field sid c;
    e ← get;
    if decide (clients e !! s = None) then
      ret (Some errInvalidSessID)
    else
      s ← field sid c;
      u ← field uid c;
      e ← get;
      (match lookup_client e s u with
       | (Some c', true) =>
           s' ← field sid (Some c');
           u' ← field uid (Some c');
           delete_client s' u'
       | _ => ret tt
       end) ;;
      ret None).

(** [len(m)] as an [int]. *)
Definition len {V} (m : gmap string V) : Z := Z.of_nat (size m).

(** The first loop of [Stats]: [n += len(m)] over the sessions. *)
Definition count_session (km : string * gmap string (option Client)) (n : Z)
  : M Z :=
  ret (int_add n (len km.2)).

Definition count_clients (e : Engine) : M Z :=
  for_range (range _ (clients e)) count_session 0.

(** The second, nested loop: a nil entry is skipped, every other client
    is sampled and its two figures are added to the running totals
    [tot], which stand for [totalRecvBW] and [totalSendBW]. *)
Definition sample_entry (cycle : Z) (kc : string * option Client) (tot : Z * Z)
  : M (Z * Z) :=
  match kc.2 with
  | None => ret tot
  | Some c =>
      bw ← do_getBandWidth c cycle;
      ret (int_add tot.1 bw.1, int_add tot.2 bw.2)
  end.

Definition sample_session (cycle : Z)
  (km : string * gmap string (option Client)) (tot : Z * Z) : M (Z * Z) :=
  for_range (range _ km.2) (sample_entry cycle) tot.

Definition sum_bandwidth (cycle : Z) (e : Engine) : M (Z * Z) :=
  for_range (range _ (clients e)) (sample_session cycle) (0, 0).

Definition second : Z := 1000000000.

(** The report [Stats] builds in [info]. *)
Definition report (n totalRecvBW totalSendBW : Z) : string :=
  newline +:+ "-------stats-------" +:+ newline
  +:+ "Clients: " +:+ fmt_d n +:+ newline
  +:+ "RecvBandWidth: " +:+ fmt_d totalRecvBW +:+ " KB/s" +:+ newline
  +:+ "SendBandWidth: " +:+ fmt_d totalSendBW +:+ " KB/s" +:+ newline.

(** One turn of the [for] loop of [Stats]. [closed] says whether the
    receive on the [close] channel can proceed when [select] looks. *)
Definition Stats_iteration (cycle : Z) (closed : bool) : M loop_step :=
  if closed then ret (Return "")
  else
    emit RLock ;;
    e ← get;
    if decide (len (clients e) = 0) then
      emit RUnlock ;;
      ret Continue
    else
      n ← count_clients e;
      tot ← sum_bandwidth cycle e;
      emit RUnlock ;;
      emit (log_Infof (report n tot.1 tot.2)) ;;
      emit (time_Sleep (int_mul cycle second)) ;;
      ret Continue.

(** The loop itself, for at most [fuel] turns; [close i] is what the
    [select] of turn [i] sees. [None]: the loop is still running. *)
Fixpoint Stats (fuel : nat) (cycle : Z) (close : nat → bool) (i : nat)
  : M (option string) :=
  match fuel with
  | O => ret None
  | S fuel' =>
      r ← Stats_iteration cycle (close i);
      match r with
      | Return s => ret (Some s)
      | Continue => Stats fuel' cycle close (S i)
      end
  end.

Definition GetStat (e : Engine) : Z * Z * Z :=
  (stat.clients (stats e), stat.totalRecvBW (stats e), stat.totalSendBW (stats e)).

(** ** Sequences of operations *)

(** The calls another goroutine can make on the engine between two
    looks at it, a turn of the [Stats] loop among them. *)
Inductive op :=
| opAddClient (c : option Client)
| opDelClient (c : option Client)
| opRemoveClient (c : option Client)
| opStats (cycle : Z) (closed : bool).

Definition step (o : op) (e : Engine) (w : World) : Engine * World * list event :=
  match o with
  | opAddClient c => let r := AddClient c e w in (engine r, world r, events r)
  | opDelClient c => let r := DelClient c e w in (engine r, world r, events r)
  | opRemoveClient c => let r := RemoveClient c e w in (engine r, world r, events r)
  | opStats cycle closed =>
      let r := Stats_iteration cycle closed e w in (engine r, world r, events r)
  end.

Fixpoint run_ops (ops : list op) (e : Engine) (w : World)
  : Engine * World * list event :=
  match ops with
  | [] => (e, w, [])
  | o :: ops' =>
      let '(e1, w1, tr1) := step o e w in
      let '(e2, w2, tr2) := run_ops ops' e1 w1 in
      (e2, w2, tr1 ++ tr2)
  end.

(** The registry once the entry the removals find under the key of [c]
    has been looked at: a client found there is removed from the map
    its own [sid] names, under its own [uid]. *)
Definition after_removal (e : Engine) (c : Client) : Engine :=
  match lookup_client e (sid c) (uid c) with
  | (Some c', true) =>
      set_clients (alter (delete (uid c')) (sid c') (clients e)) e
  | _ => e
  end.

(** The engine an operation leaves, whatever its argument. *)
Definition step_engine (o : op) (e : Engine) : Engine :=
  match o with
  | opAddClient (Some c) =>
      set_clients (<[sid c := <[uid c := Some c]> (default ∅ (clients e !! sid c))]>
                     (clients e)) e
  | opDelClient (Some c) | opRemoveClient (Some c) => after_removal e c
  | _ => e
  end.

(** The pointers of the sessions [ls] in the order the nested loops
    meet them. *)
Definition visited (ls : list (string * gmap string (option Client)))
  : list (option Client) :=
  m ← ls.*2; (range _ m).*2.

(** ** What a pass of [Stats] is measured against *)

Definition Zsum (l : list Z) : Z := foldr Z.add 0 l.

(** The pointers stored in the registry, session by session. *)
Definition entries (e : Engine) : list (option Client) :=
  m ← (map_to_list (clients e)).*2; (map_to_list m).*2.

(** The clients of the registry: its non-nil pointers. *)
Definition stored_clients (e : Engine) : list Client := omap id (entries e).

(** The sum of the sizes of the inner maps. *)
Definition total_len (e : Engine) : Z :=
  Zsum (len <$> (map_to_list (clients e)).*2).

(** [getBandWidth(cycle)] called on the clients [cs] one after the
    other, each call acting on the state the one before left: the pairs
    returned, and the state at the end. *)
Fixpoint sample_all (cycle : Z) (cs : list Client) (w : World)
  : list (Z * Z) * World :=
  match cs with
  | [] => ([], w)
  | c :: cs' =>
      let r := getBandWidth c cycle w in
      let rest := sample_all cycle cs' r.2 in
      (r.1 :: rest.1, rest.2)
  end.

Definition sample_events (cycle : Z) (cs : list Client) (samples : list (Z * Z))
  : list event :=
  zip_with (λ c bw, call_getBandWidth c cycle bw.1 bw.2) cs samples.

(** ** Reading a trace *)

(** The clients whose [Close] a trace calls, in order. *)
Definition closed_clients (tr : list event) : list Client :=
  omap (λ ev, match ev with call_Close c => Some c | _ => None end) tr.

Definition is_client_call (ev : event) : bool :=
  match ev with
  | call_Close _ | call_getBandWidth _ _ _ _ => true
  | _ => false
  end.

(** No call into a client is made while the mutex is held, [held]
    saying whether it is when the trace starts. *)
Fixpoint calls_outside_lock (held : bool) (tr : list event) : bool :=
  match tr with
  | [] => true
  | ev :: tr' =>
      match ev with
      | Lock | RLock => calls_outside_lock true tr'
      | Unlock | RUnlock => calls_outside_lock false tr'
      | _ => (negb (is_client_call ev && held)) && calls_outside_lock held tr'
      end
  end.

Definition no_call_under_lock (tr : list event) : Prop :=
  calls_outside_lock false tr = true.

(** Every client of the registry is stored under its own two
    identifiers: what [AddClient] establishes for the entry it writes. *)
Definition keyed (e : Engine) : Prop :=
  ∀ s u m c, clients e !! s = Some m → m !! u = Some (Some c) →
    sid c = s ∧ uid c = u.

(** What removing a known client with [DelClient] twice in a row is to
    do: the first call succeeds, leaves nothing under the key of [c] and
    closes the client that was stored there, once; the second call
    succeeds, changes nothing and closes nothing. *)
Definition removes_and_closes_once (e : Engine) (w : World) (c stored : Client)
  : Prop :=
  let r1 := DelClient (Some c) e w in
  let r2 := DelClient (Some c) (engine r1) (world r1) in
  out r1 = Returned None
  ∧ lookup_client (engine r1) (sid c) (uid c) = (None, false)
  ∧ closed_clients (events r1) = [stored]
  ∧ out r2 = Returned None
  ∧ engine r2 = engine r1
  ∧ closed_clients (events r2) = [].

(** Whether the mutex is held when a trace ends, [held] saying whether
    it is when the trace starts. *)
Fixpoint held_after (held : bool) (tr : list event) : bool :=
  match tr with
  | [] => held
  | ev :: tr' =>
      match ev with
      | Lock | RLock => held_after true tr'
      | Unlock | RUnlock => held_after false tr'
      | _ => held_after held tr'
      end
  end.

(** The durations a trace sleeps for and the lines it logs at the info
    level, in order. *)
Definition sleeps (tr : list event) : list Z :=
  omap (λ ev, match ev with time_Sleep d => Some d | _ => None end) tr.

Definition logged (tr : list event) : list string :=
  omap (λ ev, match ev with log_Infof msg => Some msg | _ => None end) tr.

(** A run that ended in the nil-dereference panic with the engine [e]
    and the clients' state [w] it started from. *)
Definition panics_unchanged {A} (r : run A) (e : Engine) (w : World) : Prop :=
  out r = Panicked nil_dereference ∧ engine r = e ∧ world r = w.

(** The clients a trace calls [getBandWidth] on, in order. *)
Definition sampled_clients (tr : list event) : list Client :=
  omap (λ ev, match ev with call_getBandWidth c _ _ _ => Some c | _ => None end) tr.

(** Whether an operation is a call of [AddClient], the one operation
    that writes an entry. *)
Definition is_addition (o : op) : bool :=
  match o with
  | opAddClient _ => true
  | _ => false
  end.

(** No key of the registry is bound to a nil pointer. *)
Definition no_nil_entries (e : Engine) : Prop :=
  ∀ s u m, clients e !! s = Some m → m !! u ≠ Some None.

(** ** Equations of the monad *)

Lemma prefix_nil {A} (r : run A) : prefix [] r = r.
Proof. by destruct r. Qed.

Lemma prefix_prefix {A} (tr1 tr2 : list event) (r : run A) :
  prefix tr1 (prefix tr2 r) = prefix (tr1 ++ tr2) r.
Proof. destruct r; cbn. by rewrite (assoc_L (++)). Qed.

Lemma bind_run {A B} (m : M A) (k : A → M B) e w :
  (m ≫= k) e w =
  match m e w with
  | mkRun (Returned a) e1 w1 tr1 => prefix tr1 (k a e1 w1)
  | mkRun (Panicked p) e1 w1 tr1 => mkRun (Panicked p) e1 w1 tr1
  end.
Proof. reflexivity. Qed.

Lemma bind_ret {A B} (a : A) (k : A → M B) e w : (ret a ≫= k) e w = k a e w.
Proof. rewrite bind_run. cbn. apply prefix_nil. Qed.

Lemma bind_emit {B} (ev : event) (k : unit → M B) e w :
  (emit ev ≫= k) e w = prefix [ev] (k tt e w).
Proof. reflexivity. Qed.

Lemma bind_get {B} (k : Engine → M B) e w : (get ≫= k) e w = k e e w.
Proof. rewrite bind_run. cbn. apply prefix_nil. Qed.

Lemma bind_put {B} (e' : Engine) (k : unit → M B) e w :
  (put e' ≫= k) e w = k tt e' w.
Proof. rewrite bind_run. cbn. apply prefix_nil. Qed.

Lemma bind_raise {A B} (p : panic) (k : A → M B) e w :
  (raise p ≫= k) e w = mkRun (Panicked p) e w [].
Proof. reflexivity. Qed.

Lemma bind_field {A B} (f : Client → A) (c : Client) (k : A → M B) e w :
  (field f (Some c) ≫= k) e w = k (f c) e w.
Proof. apply bind_ret. Qed.

Lemma bind_field_nil {A B} (f : Client → A) (k : A → M B) e w :
  (field f None ≫= k) e w = mkRun (Panicked nil_dereference) e w [].
Proof. reflexivity. Qed.

Lemma bind_assoc {A B C} (m : M A) (f : A → M B) (g : B → M C) e w :
  ((m ≫= f) ≫= g) e w = (m ≫= λ a, f a ≫= g) e w.
Proof.
  rewrite !bind_run. destruct (m e w) as [[a|p] e1 w1 tr1]; [|done].
  rewrite bind_run. destruct (f a e1 w1) as [[b|p] e2 w2 tr2]; cbn; [|done].
  destruct (g b e2 w2) as [o e3 w3 tr3]; cbn. by rewrite (assoc_L (++)).
Qed.

Lemma defer_emit {A} (ev : event) (body : M A) e w :
  defer (emit ev) body e w = suffix (body e w) [ev].
Proof. reflexivity. Qed.

Lemma bind_if {A B} (P : Prop) `{Decision P} (m1 m2 : M A) (k : A → M B) e w :
  ((if decide P then m1 else m2) ≫= k) e w =
  if decide P then (m1 ≫= k) e w else (m2 ≫= k) e w.
Proof. by destruct (decide P). Qed.

Lemma apply_if {A} (P : Prop) `{Decision P} (m1 m2 : M A) e w :
  (if decide P then m1 else m2) e w = if decide P then m1 e w else m2 e w.
Proof. by destruct (decide P). Qed.

(** One step of symbolic execution of a run. *)
Ltac run_step :=
  first
    [ rewrite bind_assoc
    | rewrite bind_emit
    | rewrite bind_get
    | rewrite bind_put
    | rewrite bind_field
    | rewrite bind_field_nil
    | rewrite bind_ret
    | rewrite bind_raise
    | rewrite defer_emit
    | rewrite prefix_prefix ].

Ltac run_steps := repeat run_step; cbn [prefix suffix app ret emit raise].

(** ** Wrap-around sums *)

Lemma int_wrap_add_l (a b : Z) : int_wrap (int_wrap a + b) = int_wrap (a + b).
Proof.
  unfold int_wrap. f_equal.
  replace ((a + 2 ^ (int_bits - 1)) `mod` 2 ^ int_bits - 2 ^ (int_bits - 1)
           + b + 2 ^ (int_bits - 1))
    with ((a + 2 ^ (int_bits - 1)) `mod` 2 ^ int_bits + b) by lia.
  rewrite Zplus_mod_idemp_l. f_equal. lia.
Qed.

Lemma int_wrap_idemp (a : Z) : int_wrap (int_wrap a) = int_wrap a.
Proof.
  transitivity (int_wrap (int_wrap a + 0)); [by rewrite Z.add_0_r|].
  by rewrite int_wrap_add_l, Z.add_0_r.
Qed.

Lemma foldl_int_add (l : list Z) (a : Z) :
  int_wrap a = a → foldl int_add a l = int_wrap (a + Zsum l).
Proof.
  revert a. induction l as [|x l IH]; intros a Ha.
  - cbn. by rewrite Z.add_0_r.
  - cbn [foldl]. rewrite IH by apply int_wrap_idemp.
    unfold int_add. rewrite int_wrap_add_l. f_equal.
    change (Zsum (x :: l)) with (x + Zsum l). lia.
Qed.

#[global] Instance Zsum_Permutation : Proper ((≡ₚ) ==> (=)) Zsum.
Proof. unfold Zsum. induction 1; cbn; lia. Qed.

Lemma Zsum_app (l1 l2 : list Z) : Zsum (l1 ++ l2) = Zsum l1 + Zsum l2.
Proof. unfold Zsum. induction l1; cbn; lia. Qed.

(** ** The loops of [Stats] *)

Lemma sample_all_length cycle cs w : length (sample_all cycle cs w).1 = length cs.
Proof. revert w. induction cs; intros w; cbn; [done|]. by rewrite IHcs. Qed.

Lemma sample_all_app cycle cs1 cs2 w :
  sample_all cycle (cs1 ++ cs2) w =
  let s1 := sample_all cycle cs1 w in
  let s2 := sample_all cycle cs2 s1.2 in
  (s1.1 ++ s2.1, s2.2).
Proof.
  revert w. induction cs1 as [|c cs1 IH]; intros w; cbn.
  - by destruct (sample_all cycle cs2 w).
  - by rewrite IH.
Qed.

Lemma sample_events_app cycle cs1 cs2 s1 s2 :
  length cs1 = length s1 →
  sample_events cycle (cs1 ++ cs2) (s1 ++ s2)
  = sample_events cycle cs1 s1 ++ sample_events cycle cs2 s2.
Proof. intros. unfold sample_events. by rewrite zip_with_app. Qed.

(** The run of the inner loop over the entries [l] of one session. *)
Lemma sample_entries_run cycle (l : list (string * option Client)) tot e w :
  for_range l (sample_entry cycle) tot e w =
  let cs := omap id l.*2 in
  let s := sample_all cycle cs w in
  mkRun (Returned (foldl int_add tot.1 s.1.*1, foldl int_add tot.2 s.1.*2))
    e s.2 (sample_events cycle cs s.1).
Proof.
  revert tot w. induction l as [|[u [c|]] l IH]; intros [r0 s0] w.
  - done.
  - cbn [for_range]. rewrite bind_run. unfold sample_entry at 1. cbn [snd].
    rewrite bind_run. unfold do_getBandWidth at 1.
    destruct (getBandWidth c cycle w) as [[rb sb] w1] eqn:Hg.
    cbn [prefix ret app fst snd]. rewrite IH. cbn. rewrite Hg. done.
  - cbn [for_range]. rewrite bind_run. unfold sample_entry at 1. cbn [snd ret prefix].
    rewrite IH. done.
Qed.

Lemma sample_sessions_run cycle ls tot e w :
  for_range ls (sample_session cycle) tot e w =
  let cs := omap id (visited ls) in
  let s := sample_all cycle cs w in
  mkRun (Returned (foldl int_add tot.1 s.1.*1, foldl int_add tot.2 s.1.*2))
    e s.2 (sample_events cycle cs s.1).
Proof.
  revert tot w. induction ls as [|[k m] ls IH]; intros tot w.
  - by destruct tot.
  - cbn [for_range]. rewrite bind_run. unfold sample_session at 1.
    rewrite sample_entries_run. cbn [snd fst prefix]. rewrite IH.
    unfold visited. cbn [fmap list_fmap mbind list_bind snd].
    rewrite omap_app, sample_all_app. cbn [fst snd].
    rewrite !fmap_app, !foldl_app, sample_events_app
      by by rewrite sample_all_length.
    done.
Qed.

Lemma count_sessions_run ls n e w :
  for_range ls count_session n e w
  = mkRun (Returned (foldl int_add n (len <$> ls.*2))) e w [].
Proof.
  revert n. induction ls as [|[k m] ls IH]; intros n; [done|].
  cbn [for_range].
  change (count_session (k, m) n) with (ret (int_add n (len m))).
  rewrite bind_ret, IH. done.
Qed.

Lemma bind_Permutation_ext {A B} (f g : A → list B) (l1 l2 : list A) :
  (∀ x, f x ≡ₚ g x) → l1 ≡ₚ l2 → l1 ≫= f ≡ₚ l2 ≫= g.
Proof.
  intros Hfg Hl. rewrite <- Hl. clear Hl l2.
  induction l1 as [|x l1 IH]; cbn; [done|]. by rewrite (Hfg x), IH.
Qed.


Lemma len_zero_iff {V} (m : gmap string V) : len m = 0 ↔ m = ∅.
Proof. unfold len. rewrite <- map_size_empty_iff. lia. Qed.

(** A turn of the loop on a registry that has a session. *)
Lemma Stats_iteration_run_range cycle e w :
  clients e ≠ ∅ →
  Stats_iteration cycle false e w =
  let cs := omap id (visited (range _ (clients e))) in
  let s := sample_all cycle cs w in
  mkRun (Returned Continue) e s.2
    (RLock :: sample_events cycle cs s.1
       ++ [RUnlock;
           log_Infof (report (int_wrap (Zsum (len <$> (range _ (clients e)).*2)))
                        (int_wrap (Zsum s.1.*1)) (int_wrap (Zsum s.1.*2)));
           time_Sleep (int_mul cycle second)]).
Proof.
  intros Hne. unfold Stats_iteration. run_steps.
  rewrite apply_if, decide_False by by rewrite len_zero_iff.
  unfold count_clients, sum_bandwidth.
  rewrite bind_run, count_sessions_run. cbn [prefix app].
  rewrite bind_run, sample_sessions_run. cbn [fst snd].
  run_steps. rewrite !foldl_int_add by done. rewrite !Z.add_0_l.
  rewrite app_nil_r, <- !(assoc_L (++)). done.
Qed.

Lemma empty_turn_run e w cycle :
  clients e = ∅ →
  Stats_iteration cycle false e w = mkRun (Returned Continue) e w [RLock; RUnlock].
Proof.
  intros He. unfold Stats_iteration. run_steps.
  rewrite apply_if, decide_True by by rewrite He.
  by run_steps.
Qed.

Lemma Stats_iteration_engine cycle closed e w :
  engine (Stats_iteration cycle closed e w) = e.
Proof.
  destruct closed; [done|].
  destruct (decide (clients e = ∅)) as [He|He].
  - by rewrite (empty_turn_run e w cycle He).
  - by rewrite Stats_iteration_run_range.
Qed.

Section any_order.

(** Go visits the entries of a map in an order it does not specify, each
    entry once: that is all the results below use of [range]. *)
Hypothesis range_perm : ∀ V (m : gmap string V), range V m ≡ₚ map_to_list m.

Lemma range_total_len e : Zsum (len <$> (range _ (clients e)).*2) = total_len e.
Proof. unfold total_len. by rewrite range_perm. Qed.

Lemma visited_range_entries e : visited (range _ (clients e)) ≡ₚ entries e.
Proof.
  unfold visited, entries. apply bind_Permutation_ext.
  - intros m. by rewrite range_perm.
  - by rewrite range_perm.
Qed.

Lemma Stats_iteration_run cycle e w :
  clients e ≠ ∅ →
  Stats_iteration cycle false e w =
  let cs := omap id (visited (range _ (clients e))) in
  let s := sample_all cycle cs w in
  mkRun (Returned Continue) e s.2
    (RLock :: sample_events cycle cs s.1
       ++ [RUnlock;
           log_Infof (report (int_wrap (total_len e))
                        (int_wrap (Zsum s.1.*1)) (int_wrap (Zsum s.1.*2)));
           time_Sleep (int_mul cycle second)]).
Proof. intros Hne. by rewrite Stats_iteration_run_range, range_total_len. Qed.

End any_order.

(** ** The registry after each operation *)

Lemma AddClient_run e w c :
  AddClient (Some c) e w =
  mkRun (Returned None)
    (set_clients (<[sid c := <[uid c := Some c]> (default ∅ (clients e !! sid c))]>
                    (clients e)) e)
    w [Lock; Unlock].
Proof.
  unfold AddClient, assign_client. run_steps. rewrite bind_if.
  destruct (clients e !! sid c) as [m|] eqn:Hs.
  - rewrite decide_False by done. run_steps. rewrite Hs. by run_steps.
  - rewrite decide_True by done. run_steps. cbn [clients set_clients].
    rewrite lookup_insert_eq. run_steps. cbn. by rewrite insert_insert_eq.
Qed.

Lemma lookup_client_absent e s u : clients e !! s = None → lookup_client e s u = (None, false).
Proof. unfold lookup_client. by intros ->. Qed.

Lemma DelClient_run e w c :
  DelClient (Some c) e w =
  match clients e !! sid c with
  | None => mkRun (Returned (Some errInvalidSessID)) e w [Lock; Unlock]
  | Some _ =>
      match lookup_client e (sid c) (uid c) with
      | (Some c', true) =>
          mkRun (Returned None) (after_removal e c) (Close c' w)
            [Lock; Unlock; call_Close c']
      | _ => mkRun (Returned None) e w [Lock; Unlock]
      end
  end.
Proof.
  unfold DelClient, after_removal, delete_client. run_steps. rewrite apply_if.
  destruct (clients e !! sid c) as [m|] eqn:Hs.
  - rewrite decide_False by done. run_steps.
    destruct (lookup_client e (sid c) (uid c)) as [[c'|] []]; by run_steps.
  - rewrite decide_True by done. by run_steps.
Qed.

Lemma RemoveClient_run e w c :
  RemoveClient (Some c) e w =
  match clients e !! sid c with
  | None => mkRun (Returned (Some errInvalidSessID)) e w [Lock; Unlock]
  | Some _ => mkRun (Returned None) (after_removal e c) w [Lock; Unlock]
  end.
Proof.
  unfold RemoveClient, after_removal, delete_client. run_steps. rewrite apply_if.
  destruct (clients e !! sid c) as [m|] eqn:Hs.
  - rewrite decide_False by done. run_steps.
    destruct (lookup_client e (sid c) (uid c)) as [[c'|] []]; by run_steps.
  - rewrite decide_True by done. by run_steps.
Qed.

Lemma step_engine_eq o e w : (step o e w).1.1 = step_engine o e.
Proof.
  destruct o as [[c|]|[c|]|[c|]|cycle closed]; cbn [step step_engine fst]; try done.
  - by rewrite AddClient_run.
  - rewrite DelClient_run. unfold after_removal.
    destruct (clients e !! sid c) eqn:Hs.
    + by destruct (lookup_client e (sid c) (uid c)) as [[c'|] []].
    + by rewrite lookup_client_absent.
  - rewrite RemoveClient_run. unfold after_removal.
    destruct (clients e !! sid c) eqn:Hs; [done|]. by rewrite lookup_client_absent.
  - apply Stats_iteration_engine.
Qed.

Lemma alter_lookup_insert {V} (f : V → V) (k : string) (m : gmap string V) x :
  m !! k = Some x → alter f k m = <[k := f x]> m.
Proof.
  intros Hk. apply map_eq; intros j. destruct (decide (k = j)) as [<-|Hne].
  - by rewrite lookup_alter_eq, lookup_insert_eq, Hk.
  - by rewrite lookup_alter_ne, lookup_insert_ne.
Qed.

Lemma stats_step_engine o e : stats (step_engine o e) = stats e.
Proof.
  destruct o as [[c|]|[c|]|[c|]|cycle closed]; cbn [step_engine]; try done;
    unfold after_removal;
    by destruct (lookup_client e (sid c) (uid c)) as [[c'|] []].
Qed.

Lemma sessions_step_engine o e s :
  is_Some (clients e !! s) → is_Some (clients (step_engine o e) !! s).
Proof.
  intros Hs.
  destruct o as [[c|]|[c|]|[c|]|cycle closed]; cbn [step_engine]; try done.
  - cbn. destruct (decide (sid c = s)) as [<-|Hne].
    + by rewrite lookup_insert_eq.
    + by rewrite lookup_insert_ne.
  - unfold after_removal.
    destruct (lookup_client e (sid c) (uid c)) as [[c'|] []]; try done.
    cbn. rewrite lookup_alter. case_decide; [subst|done]. by apply fmap_is_Some.
  - unfold after_removal.
    destruct (lookup_client e (sid c) (uid c)) as [[c'|] []]; try done.
    cbn. rewrite lookup_alter. case_decide; [subst|done]. by apply fmap_is_Some.
Qed.

Lemma run_ops_cons o ops e w :
  (run_ops (o :: ops) e w).1.1
  = (run_ops ops (step_engine o e) (step o e w).1.2).1.1.
Proof.
  cbn [run_ops]. rewrite <- (step_engine_eq o e w).
  destruct (step o e w) as [[e1 w1] tr1]. cbn [fst snd].
  by destruct (run_ops ops e1 w1) as [[e2 w2] tr2].
Qed.

Lemma keyed_after_removal e c : keyed e → keyed (after_removal e c).
Proof.
  intros Hk. unfold after_removal.
  destruct (lookup_client e (sid c) (uid c)) as [[c'|] []]; try done.
  intros s u m x. cbn. rewrite lookup_alter. case_decide as Hs.
  - subst s. destruct (clients e !! sid c') as [m'|] eqn:Hm; [|done].
    cbn. intros [= <-] [Hne Hu]%lookup_delete_Some. by eapply Hk.
  - by apply Hk.
Qed.

(** The invariant holds in a new engine and every operation keeps it. *)
Lemma keyed_NewEngine cfg : keyed (NewEngine cfg).
Proof. intros s u m c. unfold NewEngine; cbn. by rewrite lookup_empty. Qed.

Lemma keyed_step_engine o e : keyed e → keyed (step_engine o e).
Proof.
  intros Hk.
  destruct o as [[c|]|[c|]|[c|]|cycle closed]; cbn [step_engine]; try done;
    [|by apply keyed_after_removal..].
  intros s u m x. cbn. destruct (decide (sid c = s)) as [<-|Hne].
  - rewrite lookup_insert_eq. intros [= <-].
    destruct (decide (uid c = u)) as [<-|Hne].
    + rewrite lookup_insert_eq. by intros [= <-].
    + rewrite lookup_insert_ne by done.
      destruct (clients e !! sid c) as [m'|] eqn:Hm; cbn.
      * by apply Hk.
      * by rewrite lookup_empty.
  - rewrite lookup_insert_ne by done. by apply Hk.
Qed.

Lemma keyed_run_ops ops e w : keyed e → keyed (run_ops ops e w).1.1.
Proof.
  revert e w. induction ops as [|o ops IH]; intros e w Hk; [done|].
  rewrite run_ops_cons. by apply IH, keyed_step_engine.
Qed.

Lemma sample_all_const cycle (f : Client → Z * Z) cs w :
  (∀ c w', c ∈ cs → (getBandWidth c cycle w').1 = f c) →
  (sample_all cycle cs w).1 = f <$> cs.
Proof.
  revert w. induction cs as [|c cs IH]; intros w Hf; [done|].
  cbn. rewrite Hf by left. f_equal. apply IH. intros c' w' Hc'. apply Hf. by right.
Qed.

(** [DelClient] on a key bound to a client stored under its own
    identifiers, and on a key of a known session that is not bound. *)
Lemma DelClient_keyed_run e w c stored (m : gmap string (option Client)) :
  clients e !! sid c = Some m →
  m !! uid c = Some (Some stored) →
  sid stored = sid c →
  uid stored = uid c →
  DelClient (Some c) e w
  = mkRun (Returned None)
      (set_clients (<[sid c := delete (uid c) m]> (clients e)) e)
      (Close stored w) [Lock; Unlock; call_Close stored].
Proof.
  intros Hs Hu Hsid Huid.
  assert (Hl : lookup_client e (sid c) (uid c) = (Some stored, true)).
  { unfold lookup_client. by rewrite Hs, Hu. }
  rewrite DelClient_run, Hs, Hl. unfold after_removal.
  by rewrite Hl, Hsid, Huid, (alter_lookup_insert _ _ _ m).
Qed.

Lemma DelClient_unbound_run e w c (m : gmap string (option Client)) :
  clients e !! sid c = Some m →
  m !! uid c = None →
  DelClient (Some c) e w = mkRun (Returned None) e w [Lock; Unlock].
Proof.
  intros Hs Hu. rewrite DelClient_run, Hs. unfold lookup_client.
  by rewrite Hs, Hu.
Qed.

(** In an engine built by the operations from a new one, a non-nil
    client found under a key is stored under its own identifiers, so
    removing it twice goes as [removes_and_closes_once] says. *)
Lemma DelClient_twice_after_ops cfg ops w0 w c stored :
  let e := (run_ops ops (NewEngine cfg) w0).1.1 in
  lookup_client e (sid c) (uid c) = (Some stored, true) →
  removes_and_closes_once e w c stored.
Proof.
  intros e Hl. unfold lookup_client in Hl.
  destruct (clients e !! sid c) as [m|] eqn:Hs; [|done].
  destruct (m !! uid c) as [x|] eqn:Hu; [|done].
  injection Hl as ->.
  destruct (keyed_run_ops ops (NewEngine cfg) w0 (keyed_NewEngine cfg)
              (sid c) (uid c) m stored Hs Hu) as [Hsid Huid].
  unfold removes_and_closes_once.
  rewrite (DelClient_keyed_run e w c stored m) by done. cbn [engine world events out].
  rewrite (DelClient_unbound_run _ _ c (delete (uid c) m));
    [|by cbn; rewrite lookup_insert_eq|by rewrite lookup_delete_eq].
  split_and!; try done.
  unfold lookup_client; cbn. by rewrite lookup_insert_eq, lookup_delete_eq.
Qed.

(** In a registry whose clients are stored under their own identifiers
    an operation other than [AddClient] leaves a nil entry where it is. *)
Lemma nil_entry_step_engine o e s u :
  keyed e →
  is_addition o = false →
  lookup_client e s u = (None, true) →
  lookup_client (step_engine o e) s u = (None, true).
Proof.
  intros Hk Ho Hl.
  assert (Hrem : ∀ c, lookup_client (after_removal e c) s u = (None, true)).
  { intros c. unfold after_removal.
    destruct (lookup_client e (sid c) (uid c)) as [[c'|] []] eqn:Hc; try done.
    assert (Hkey : sid c' = sid c ∧ uid c' = uid c).
    { unfold lookup_client in Hc.
      destruct (clients e !! sid c) as [m|] eqn:Hs; [|done].
      destruct (m !! uid c) as [x|] eqn:Hu; [|done].
      injection Hc as ->. by apply (Hk _ _ m). }
    destruct Hkey as [Hsid Huid]. rewrite Hsid, Huid.
    unfold lookup_client in *. cbn [clients set_clients].
    rewrite lookup_alter. case_decide as Hs; [|done]. subst s.
    destruct (clients e !! sid c) as [m|]; [|done]. cbn.
    destruct (decide (uid c = u)) as [<-|Hne].
    - destruct (m !! uid c) as [x|]; [|done]. by injection Hc as ->; subst.
    - by rewrite lookup_delete_ne.
  }
  destruct o as [[c|]|[c|]|[c|]|cycle closed]; cbn [step_engine]; try done.
Qed.

(** ** Properties *)

(** C1, as the code has it: [AddClient(nil)] reads [c.sid] before it
    tests [c == nil], so it panics on the nil dereference with the
    registry as it was; the deferred [Unlock] runs, and the branch that
    builds the "client is nil" error is never reached. *)
Theorem AddClient_nil_panics (e : Engine) (w : World) :
  AddClient None e w = mkRun (Panicked nil_dereference) e w [Lock; Unlock].
Proof. reflexivity. Qed.

(** C3: when the session of the client is not a key of the outer map,
    [DelClient] and [RemoveClient] both return [errInvalidSessID]; the
    engine and the clients are as before, and the trace holds the two
    mutex calls only, so no [Close]. *)
Theorem unknown_session_rejected (e : Engine) (w : World) (c : Client) :
  clients e !! sid c = None →
  DelClient (Some c) e w
    = mkRun (Returned (Some errInvalidSessID)) e w [Lock; Unlock]
  ∧ RemoveClient (Some c) e w
    = mkRun (Returned (Some errInvalidSessID)) e w [Lock; Unlock].
Proof.
  intros Hs. unfold DelClient, RemoveClient. run_steps.
  rewrite !apply_if, !decide_True by done. by run_steps.
Qed.

(** C2: in an engine built from a new one by the operations, when the
    key of [c] is bound to a non-nil client [stored], [DelClient]
    succeeds, takes that entry out of the registry, every other key
    reading as before, and, with the mutex released, calls [Close] on
    [stored], once; a second call with the same key succeeds with the two
    mutex calls as its whole trace, the engine and the clients staying as
    the first call left them. *)
Theorem DelClient_closes_once (cfg0 : Config) (ops : list op) (w0 w : World)
  (c stored : Client) :
  let e := (run_ops ops (NewEngine cfg0) w0).1.1 in
  lookup_client e (sid c) (uid c) = (Some stored, true) →
  let r1 := DelClient (Some c) e w in
  let r2 := DelClient (Some c) (engine r1) (world r1) in
  out r1 = Returned None
  ∧ events r1 = [Lock; Unlock; call_Close stored]
  ∧ world r1 = Close stored w
  ∧ (∀ s u, lookup_client (engine r1) s u
            = if decide (s = sid c ∧ u = uid c) then (None, false)
              else lookup_client e s u)
  ∧ r2 = mkRun (Returned None) (engine r1) (world r1) [Lock; Unlock]
  ∧ removes_and_closes_once e w c stored.
Proof.
  intros e Hl r1 r2.
  pose proof (DelClient_twice_after_ops cfg0 ops w0 w c stored Hl) as Honce.
  unfold lookup_client in Hl.
  destruct (clients e !! sid c) as [m|] eqn:Hs; [|done].
  destruct (m !! uid c) as [x|] eqn:Hu; [|done].
  injection Hl as ->.
  destruct (keyed_run_ops ops (NewEngine cfg0) w0 (keyed_NewEngine cfg0)
              (sid c) (uid c) m stored Hs Hu) as [Hsid Huid].
  assert (H1 : r1 = mkRun (Returned None)
                 (set_clients (<[sid c := delete (uid c) m]> (clients e)) e)
                 (Close stored w) [Lock; Unlock; call_Close stored])
    by by apply DelClient_keyed_run.
  assert (H2 : r2 = mkRun (Returned None) (engine r1) (world r1) [Lock; Unlock]).
  { unfold r2. rewrite H1. cbn [engine world].
    apply (DelClient_unbound_run _ _ c (delete (uid c) m)).
    - cbn. by rewrite lookup_insert_eq.
    - by rewrite lookup_delete_eq. }
  rewrite H1 in *. cbn [out events world engine] in *.
  split_and!; try done.
  intros s u. unfold lookup_client. cbn [clients set_clients].
  destruct (decide (s = sid c)) as [->|Hne].
  - rewrite lookup_insert_eq, Hs. destruct (decide (u = uid c)) as [->|Hne].
    + by rewrite lookup_delete_eq, decide_True.
    + rewrite lookup_delete_ne by done.
      by rewrite decide_False by (intros [_ ?]; done).
  - rewrite lookup_insert_ne by done.
    by rewrite decide_False by (intros [? _]; done).
Qed.

(** C5: when the key of [c] is already bound, to [old], [AddClient]
    succeeds and binds the key to [c], the other entries staying as they
    were; its trace is the two mutex calls, so [Close] is called on no
    client, [old] included, and the clients' state is untouched. *)
Theorem AddClient_overwrites (e : Engine) (w : World) (c : Client)
  (m : gmap string (option Client)) (old : option Client) :
  clients e !! sid c = Some m →
  m !! uid c = Some old →
  let r := AddClient (Some c) e w in
  r = mkRun (Returned None)
        (set_clients (<[sid c := <[uid c := Some c]> m]> (clients e)) e)
        w [Lock; Unlock]
  ∧ lookup_client (engine r) (sid c) (uid c) = (Some c, true)
  ∧ closed_clients (events r) = [].
Proof.
  intros Hs Hu r.
  assert (Hr : r = mkRun (Returned None)
        (set_clients (<[sid c := <[uid c := Some c]> m]> (clients e)) e)
        w [Lock; Unlock]).
  { unfold r, AddClient, assign_client. run_steps.
    rewrite bind_if, (decide_False (P := _ = None)) by by rewrite Hs.
    run_steps. rewrite Hs. by run_steps. }
  rewrite Hr. split_and!; [done| |done].
  unfold lookup_client; cbn. by rewrite !lookup_insert_eq.
Qed.

(** C7: a turn of the [Stats] loop that finds the outer map empty ends
    right after releasing the read lock: nothing is logged, there is no
    sleep, and the loop goes on with its next turn. *)
Theorem Stats_empty_skips (e : Engine) (w : World) (cycle : Z) :
  clients e = ∅ →
  Stats_iteration cycle false e w = mkRun (Returned Continue) e w [RLock; RUnlock]
  ∧ ∀ fuel close i, close i = false →
      Stats (S fuel) cycle close i e w
      = prefix [RLock; RUnlock] (Stats fuel cycle close (S i) e w).
Proof.
  intros He. pose proof (empty_turn_run e w cycle He) as Hturn.
  split; [exact Hturn|]. intros fuel close i Hc. cbn [Stats].
  rewrite bind_run, Hc, Hturn. reflexivity.
Qed.

(** C10: when the key of [c] is bound to nil, [DelClient] and
    [RemoveClient] both succeed and leave the engine, that entry
    included, exactly as it was; neither calls [Close], however often
    they are called. In a registry whose clients are stored under their
    own identifiers no removal at all takes the entry out: it is still
    there, still nil, after any sequence of [DelClient] and
    [RemoveClient] calls with any arguments and of turns of [Stats]. *)
Theorem nil_entry_never_removed (e : Engine) (w : World) (c : Client)
  (m : gmap string (option Client)) :
  clients e !! sid c = Some m →
  m !! uid c = Some None →
  DelClient (Some c) e w = mkRun (Returned None) e w [Lock; Unlock]
  ∧ RemoveClient (Some c) e w = mkRun (Returned None) e w [Lock; Unlock]
  ∧ (∀ ops, Forall (λ o, o = opDelClient (Some c) ∨ o = opRemoveClient (Some c)) ops →
       (run_ops ops e w).1 = (e, w))
  ∧ (keyed e →
     ∀ ops, Forall (λ o, is_addition o = false) ops →
       lookup_client (run_ops ops e w).1.1 (sid c) (uid c) = (None, true)).
Proof.
  intros Hs Hu.
  assert (Hl : lookup_client e (sid c) (uid c) = (None, true)).
  { unfold lookup_client. by rewrite Hs, Hu. }
  assert (Hd : DelClient (Some c) e w = mkRun (Returned None) e w [Lock; Unlock]).
  { unfold DelClient. run_steps.
    rewrite apply_if, (decide_False (P := _ = None)) by by rewrite Hs.
    run_steps. rewrite Hl. by run_steps. }
  assert (Hr : RemoveClient (Some c) e w = mkRun (Returned None) e w [Lock; Unlock]).
  { unfold RemoveClient. run_steps.
    rewrite apply_if, (decide_False (P := _ = None)) by by rewrite Hs.
    run_steps. rewrite Hl. by run_steps. }
  split_and!; [done..| |].
  - induction 1 as [|o ops [->| ->] _ IH]; [done| |]; cbn [run_ops step].
    + rewrite Hd; cbn. by destruct (run_ops ops e w) as [[??]?].
    + rewrite Hr; cbn. by destruct (run_ops ops e w) as [[??]?].
  - intros Hk ops Hops. clear Hd Hr Hs Hu. revert e w Hk Hl.
    induction Hops as [|o ops Ho _ IH]; intros e w Hk Hl; [done|].
    rewrite run_ops_cons. apply IH.
    + by apply keyed_step_engine.
    + by apply nil_entry_step_engine.
Qed.

(** C6: no operation writes the [stats] field, so [GetStat] returns
    three zeros in a new engine and after any sequence of [AddClient],
    [DelClient], [RemoveClient] and turns of the [Stats] loop. *)
Theorem GetStat_always_zero :
  (∀ o e w, stats (step o e w).1.1 = stats e)
  ∧ ∀ cfg ops w, GetStat (run_ops ops (NewEngine cfg) w).1.1 = (0, 0, 0).
Proof.
  assert (Hstep : ∀ o e w, stats (step o e w).1.1 = stats e).
  { intros. by rewrite step_engine_eq, stats_step_engine. }
  split; [done|]. intros cfg ops w.
  assert (Hall : ∀ e w, stats (run_ops ops e w).1.1 = stats e).
  { induction ops as [|o ops IH]; intros e0 w0; [done|].
    by rewrite run_ops_cons, IH, stats_step_engine. }
  unfold GetStat. by rewrite Hall.
Qed.

(** C9: after [AddClient] has stored a client, its session is a key of
    the outer map and stays one through any further operations; more
    generally no operation takes a key out of the outer map. Removing
    the only client of a session leaves the session bound to an empty
    inner map. *)
Theorem session_key_never_removed :
  (∀ e w c ops w',
     is_Some (clients (run_ops ops (engine (AddClient (Some c) e w)) w').1.1 !! sid c))
  ∧ (∀ ops e w s,
     is_Some (clients e !! s) → is_Some (clients (run_ops ops e w).1.1 !! s))
  ∧ (∀ cfg w c,
     clients (run_ops [opAddClient (Some c); opDelClient (Some c)] (NewEngine cfg) w).1.1
       = {[ sid c := ∅ ]}
     ∧ clients (run_ops [opAddClient (Some c); opRemoveClient (Some c)] (NewEngine cfg) w).1.1
       = {[ sid c := ∅ ]}).
Proof.
  assert (Hkeep : ∀ ops e w s,
     is_Some (clients e !! s) → is_Some (clients (run_ops ops e w).1.1 !! s)).
  { induction ops as [|o ops IH]; intros e w s Hs; [done|].
    rewrite run_ops_cons. by apply IH, sessions_step_engine. }
  split_and!; [|done|].
  - intros e w c ops w'. apply Hkeep. rewrite AddClient_run; cbn.
    by rewrite lookup_insert_eq.
  - intros cfg w c.
    assert (Hrm : clients (after_removal
        (step_engine (opAddClient (Some c)) (NewEngine cfg)) c) = {[ sid c := ∅ ]}).
    { unfold after_removal, lookup_client. cbn.
      rewrite lookup_empty. cbn. rewrite insert_empty, !lookup_singleton_eq.
      rewrite lookup_insert_eq. cbn.
      by rewrite alter_singleton_eq, insert_empty, delete_singleton_eq. }
    by rewrite !run_ops_cons.
Qed.

Section order_properties.

Hypothesis range_perm : ∀ V (m : gmap string V), range V m ≡ₚ map_to_list m.

(** C4: a turn of the [Stats] loop on a registry that has a session
    calls [getBandWidth] with [cycle] once on every non-nil client of the
    registry, in some order, and logs a report whose client count is the
    sum of the sizes of the inner maps and whose two totals are the sums
    of the figures those calls returned, all three in [int] arithmetic;
    it then sleeps. For the registry with sessions A (two clients,
    reporting 10 and 5, 20 and 15) and B (one client, reporting 0 and 0)
    the report says 3 clients, 30 received and 20 sent. *)
Theorem Stats_aggregates :
  (∀ e w cycle,
     clients e ≠ ∅ →
     ∃ cs, cs ≡ₚ stored_clients e ∧
       let s := sample_all cycle cs w in
       Stats_iteration cycle false e w =
       mkRun (Returned Continue) e s.2
         (RLock :: sample_events cycle cs s.1
            ++ [RUnlock;
                log_Infof (report (int_wrap (total_len e))
                             (int_wrap (Zsum s.1.*1)) (int_wrap (Zsum s.1.*2)));
                time_Sleep (int_mul cycle second)]))
  ∧ (∀ cfg st w cycle,
     (∀ c w', c ∈ [example_c1; example_c2; example_c3] →
        (getBandWidth c cycle w').1 = example_sample c) →
     let e := mkEngine cfg example_clients st in
     ∃ w' calls,
       Forall (λ ev, ∃ c, ev = call_getBandWidth c cycle
                                 (example_sample c).1 (example_sample c).2) calls
       ∧ Stats_iteration cycle false e w =
         mkRun (Returned Continue) e w'
           (RLock :: calls
              ++ [RUnlock; log_Infof (report 3 30 20);
                  time_Sleep (int_mul cycle second)])).
Proof.
  assert (Hgen : ∀ e w cycle,
     clients e ≠ ∅ →
     ∃ cs, cs ≡ₚ stored_clients e ∧
       let s := sample_all cycle cs w in
       Stats_iteration cycle false e w =
       mkRun (Returned Continue) e s.2
         (RLock :: sample_events cycle cs s.1
            ++ [RUnlock;
                log_Infof (report (int_wrap (total_len e))
                             (int_wrap (Zsum s.1.*1)) (int_wrap (Zsum s.1.*2)));
                time_Sleep (int_mul cycle second)])).
  { intros e w cycle Hne.
    exists (omap id (visited (range _ (clients e)))). split.
    - unfold stored_clients. by rewrite (visited_range_entries range_perm).
    - by apply Stats_iteration_run. }
  split; [done|]. intros cfg st w cycle Hf e.
  destruct (Hgen e w cycle) as (cs & Hcs & Hrun).
  { intros He. apply (f_equal (λ m, m !! "A")) in He. by vm_compute in He. }
  assert (Hst : stored_clients e = [example_c1; example_c2; example_c3])
    by by vm_compute.
  assert (Hlen : total_len e = 3) by by vm_compute.
  rewrite Hst in Hcs. rewrite Hlen in Hrun. cbn zeta in Hrun.
  assert (Hs : (sample_all cycle cs w).1 = example_sample <$> cs).
  { apply sample_all_const. intros c w' Hc. apply Hf. by rewrite <- Hcs. }
  rewrite Hs in Hrun.
  assert (Hr : Zsum (example_sample <$> cs).*1 = 30) by by rewrite Hcs.
  assert (Hsd : Zsum (example_sample <$> cs).*2 = 20) by by rewrite Hcs.
  rewrite Hr, Hsd in Hrun.
  exists (sample_all cycle cs w).2, (sample_events cycle cs (example_sample <$> cs)).
  split; [|exact Hrun].
  unfold sample_events. clear. induction cs as [|c cs IH]; cbn; [done|].
  constructor; [by exists c|done].
Qed.

(** C8, as the code has it: [DelClient] makes its call to [Close] after
    it has released the mutex, whatever its argument and the registry.
    A turn of the [Stats] loop takes the read lock, makes all its
    [getBandWidth] calls, one for each non-nil client, and only then
    releases the lock; what follows the release is the log line and the
    sleep. So its sampling calls are made with the read lock held, and
    its trace is free of calls under the lock exactly when the registry
    stores no client. *)
Theorem lock_scope :
  (∀ c e w, no_call_under_lock (events (DelClient c e w)))
  ∧ (∀ cycle e w, ∃ calls rest,
       events (Stats_iteration cycle false e w) = RLock :: calls ++ RUnlock :: rest
       ∧ Forall (λ ev, ∃ c recvBW sendBW,
                   ev = call_getBandWidth c cycle recvBW sendBW) calls
       ∧ length calls = length (stored_clients e)
       ∧ Forall (λ ev, is_client_call ev = false) rest)
  ∧ (∀ cycle e w,
       calls_outside_lock false (events (Stats_iteration cycle false e w))
       = bool_decide (stored_clients e = [])).
Proof.
  assert (Hcalls : ∀ cycle cs smp,
    Forall (λ ev, ∃ c recvBW sendBW,
              ev = call_getBandWidth c cycle recvBW sendBW)
      (sample_events cycle cs smp)).
  { intros cycle cs. unfold sample_events.
    induction cs as [|c cs IH]; intros [|bw smp]; cbn; [done..|].
    constructor; [by eexists _, _, _|apply IH]. }
  assert (Hlen : ∀ cycle e w,
    length (sample_events cycle (omap id (visited (range _ (clients e))))
              (sample_all cycle (omap id (visited (range _ (clients e)))) w).1)
    = length (stored_clients e)).
  { intros. unfold sample_events, stored_clients.
    rewrite length_zip_with, sample_all_length, <- (visited_range_entries range_perm e). lia. }
  split_and!.
  - intros [c|] e w; [|done]. rewrite DelClient_run. unfold no_call_under_lock.
    destruct (clients e !! sid c); [|done].
    by destruct (lookup_client e (sid c) (uid c)) as [[c'|] []].
  - intros cycle e w. destruct (decide (clients e = ∅)) as [He|He].
    + exists [], []. rewrite (empty_turn_run e w cycle He).
      split_and!; [done..| |done]. unfold stored_clients, entries.
      by rewrite He, map_to_list_empty.
    + rewrite Stats_iteration_run by done. cbn zeta. eexists _, _.
      split_and!; [done|apply Hcalls|apply Hlen|by repeat constructor].
  - intros cycle e w. destruct (decide (clients e = ∅)) as [He|He].
    + rewrite (empty_turn_run e w cycle He).
      unfold stored_clients, entries. by rewrite He, map_to_list_empty.
    + rewrite Stats_iteration_run by done. cbn zeta. cbn [events].
      specialize (Hlen cycle e w). specialize (Hcalls cycle
        (omap id (visited (range _ (clients e))))
        (sample_all cycle (omap id (visited (range _ (clients e)))) w).1).
      destruct (sample_events _ _ _) as [|ev tr].
      * destruct (stored_clients e); [done|]. cbn in Hlen. lia.
      * destruct (stored_clients e); [cbn in Hlen; lia|].
        apply Forall_cons_1 in Hcalls as [(c' & rb & sb & ->) _]. done.
Qed.

End order_properties.

(** ** Further properties of the operations *)

Lemma lookup_client_AddClient e c s u :
  lookup_client (step_engine (opAddClient (Some c)) e) s u
  = if decide (s = sid c ∧ u = uid c) then (Some c, true) else lookup_client e s u.
Proof.
  unfold lookup_client. cbn. destruct (decide (s = sid c)) as [->|Hs].
  - rewrite lookup_insert_eq. destruct (decide (u = uid c)) as [->|Hu].
    + by rewrite lookup_insert_eq, decide_True.
    + rewrite lookup_insert_ne by done.
      rewrite decide_False by (intros [_ ?]; done).
      by destruct (clients e !! sid c).
  - rewrite lookup_insert_ne by done.
    by rewrite decide_False by (intros [? _]; done).
Qed.

Lemma AddClient_nil_run e w :
  AddClient None e w = mkRun (Panicked nil_dereference) e w [Lock; Unlock].
Proof. reflexivity. Qed.

Lemma DelClient_nil_run e w :
  DelClient None e w = mkRun (Panicked nil_dereference) e w [Lock].
Proof. reflexivity. Qed.

Lemma RemoveClient_nil_run e w :
  RemoveClient None e w = mkRun (Panicked nil_dereference) e w [Lock; Unlock].
Proof. reflexivity. Qed.

Lemma Engine_eta (e : Engine) : set_clients (clients e) e = e.
Proof. by destruct e. Qed.

(** X1: [AddClient] with a non-nil client always succeeds, with the two
    mutex calls as its trace; afterwards the key of the client is bound
    to it and every other key reads as before. Adding the same client a
    second time changes nothing more. *)
Theorem AddClient_binds_key (e : Engine) (w : World) (c : Client) :
  let r := AddClient (Some c) e w in
  out r = Returned None
  ∧ world r = w
  ∧ events r = [Lock; Unlock]
  ∧ (∀ s u, lookup_client (engine r) s u
            = if decide (s = sid c ∧ u = uid c) then (Some c, true)
              else lookup_client e s u)
  ∧ engine (AddClient (Some c) (engine r) w) = engine r.
Proof.
  intros r. unfold r. rewrite !AddClient_run. cbn [out world events engine].
  split_and!; try done.
  - apply lookup_client_AddClient.
  - cbn. rewrite lookup_insert_eq. cbn. by rewrite !insert_insert_eq.
Qed.

(** X2: adding a client under a free key of a session the registry
    knows and then removing it gives the engine back as it was, with
    either removal; each call succeeds, and [DelClient] closes the
    client that was added. *)
Theorem AddClient_then_removal_restores (e : Engine) (w : World) (c : Client)
  (m : gmap string (option Client)) :
  clients e !! sid c = Some m →
  m !! uid c = None →
  let e1 := engine (AddClient (Some c) e w) in
  RemoveClient (Some c) e1 w = mkRun (Returned None) e w [Lock; Unlock]
  ∧ DelClient (Some c) e1 w
    = mkRun (Returned None) e (Close c w) [Lock; Unlock; call_Close c].
Proof.
  intros Hs Hu e1.
  assert (He1 : e1 = set_clients (<[sid c := <[uid c := Some c]> m]> (clients e)) e).
  { unfold e1. by rewrite AddClient_run, Hs. }
  assert (Hs1 : clients e1 !! sid c = Some (<[uid c := Some c]> m)).
  { rewrite He1; cbn. by rewrite lookup_insert_eq. }
  assert (Hback : set_clients
            (<[sid c := delete (uid c) (<[uid c := Some c]> m)]> (clients e1)) e1 = e).
  { rewrite He1. unfold set_clients; cbn.
    rewrite delete_insert_id, insert_insert_eq, insert_id by done.
    by destruct e. }
  split.
  - rewrite RemoveClient_run, Hs1. unfold after_removal, lookup_client.
    rewrite Hs1, lookup_insert_eq.
    by rewrite (alter_lookup_insert _ _ _ _ Hs1), Hback.
  - rewrite (DelClient_keyed_run e1 w c c (<[uid c := Some c]> m))
      by (done || by rewrite lookup_insert_eq).
    by rewrite Hback.
Qed.

(** X3: [RemoveClient] never calls into a client: whatever its argument
    and the registry, the clients' state is untouched and the trace holds
    no [Close]. It leaves the same engine and the same result as
    [DelClient], which for its part closes at most one client. *)
Theorem RemoveClient_never_closes (c : option Client) (e : Engine) (w : World) :
  world (RemoveClient c e w) = w
  ∧ closed_clients (events (RemoveClient c e w)) = []
  ∧ engine (RemoveClient c e w) = engine (DelClient c e w)
  ∧ out (RemoveClient c e w) = out (DelClient c e w)
  ∧ (length (closed_clients (events (DelClient c e w))) ≤ 1)%nat.
Proof.
  destruct c as [c|];
    [|rewrite RemoveClient_nil_run, DelClient_nil_run; by split_and!; cbn; try lia].
  rewrite RemoveClient_run, DelClient_run. unfold after_removal.
  destruct (clients e !! sid c) as [m|]; [|by split_and!; cbn; try lia].
  by destruct (lookup_client e (sid c) (uid c)) as [[c'|] []];
    split_and!; cbn; try lia.
Qed.

(** X5: [AddClient] and [RemoveClient], which make no call into a
    client, never panic on a non-nil client: [AddClient] returns nil and
    [RemoveClient] returns [errInvalidSessID] when the session is not a
    key of the outer map and nil otherwise, whether or not it finds a
    client to remove. Handed a nil client, all three registry operations
    panic on the dereference of [c.sid], before they have changed the
    registry or called into a client. *)
Theorem outcomes_of_operations (e : Engine) (w : World) :
  (∀ c, out (AddClient (Some c) e w) = Returned None
        ∧ out (RemoveClient (Some c) e w)
          = Returned (if decide (clients e !! sid c = None)
                      then Some errInvalidSessID else None))
  ∧ panics_unchanged (AddClient None e w) e w
  ∧ panics_unchanged (DelClient None e w) e w
  ∧ panics_unchanged (RemoveClient None e w) e w.
Proof.
  split.
  - intros c. rewrite AddClient_run, RemoveClient_run.
    destruct (clients e !! sid c) as [m|].
    + by rewrite decide_False.
    + by rewrite decide_True.
  - by rewrite AddClient_nil_run, DelClient_nil_run, RemoveClient_nil_run.
Qed.

(** X6: removing a client whose session is known but whose key is not
    bound is a successful no-op for both removals: nil is returned, the
    engine and the clients are as before and nothing is closed. *)
Theorem removal_of_unbound_key (e : Engine) (w : World) (c : Client)
  (m : gmap string (option Client)) :
  clients e !! sid c = Some m →
  m !! uid c = None →
  DelClient (Some c) e w = mkRun (Returned None) e w [Lock; Unlock]
  ∧ RemoveClient (Some c) e w = mkRun (Returned None) e w [Lock; Unlock].
Proof.
  intros Hs Hu.
  assert (Hl : lookup_client e (sid c) (uid c) = (None, false)).
  { unfold lookup_client. by rewrite Hs, Hu. }
  rewrite DelClient_run, RemoveClient_run, Hs. unfold after_removal.
  by rewrite Hl.
Qed.

Lemma sleeps_sample_events cycle cs smp : sleeps (sample_events cycle cs smp) = [].
Proof.
  unfold sample_events, sleeps. revert smp.
  induction cs as [|c cs IH]; intros [|bw smp]; cbn; auto.
Qed.

Lemma logged_sample_events cycle cs smp : logged (sample_events cycle cs smp) = [].
Proof.
  unfold sample_events, logged. revert smp.
  induction cs as [|c cs IH]; intros [|bw smp]; cbn; auto.
Qed.

(** X4: [AddClient] and [RemoveClient] end with the mutex released
    whatever their argument, by [defer] even when they panic.
    [DelClient] has released it by the time it calls [Close], which is
    the last thing it does, and when it returns without such a call,
    unless it is handed a nil client: it then panics on [c.sid] after
    [Lock] and has no deferred [Unlock], so the mutex stays locked. *)
Theorem mutex_released_unless_DelClient_nil (c : option Client) (e : Engine)
  (w : World) :
  held_after false (events (AddClient c e w)) = false
  ∧ held_after false (events (RemoveClient c e w)) = false
  ∧ held_after false (events (DelClient c e w))
    = match c with Some _ => false | None => true end
  ∧ ∀ tr c' tr', events (DelClient c e w) = tr ++ call_Close c' :: tr' →
      held_after false tr = false ∧ tr' = [].
Proof.
  destruct c as [c|].
  - rewrite AddClient_run, RemoveClient_run, DelClient_run.
    destruct (clients e !! sid c) as [m|].
    + destruct (lookup_client e (sid c) (uid c)) as [[c'|] []];
        (split_and!; [done..|]); intros tr c0 tr' Htr; cbn [events] in Htr;
        destruct tr as [|? [|? [|? tr]]]; simplify_eq/=; try done;
        by destruct tr.
    + (split_and!; [done..|]). intros tr c0 tr' Htr. cbn [events] in Htr.
      destruct tr as [|? [|? [|? tr]]]; simplify_eq/=; by destruct tr.
  - rewrite AddClient_nil_run, RemoveClient_nil_run, DelClient_nil_run.
    (split_and!; [done..|]). intros tr c0 tr' Htr. cbn [events] in Htr.
    destruct tr as [|? [|? tr]]; simplify_eq/=; by destruct tr.
Qed.

Lemma no_nil_step_engine o e : no_nil_entries e → no_nil_entries (step_engine o e).
Proof.
  intros Hn.
  destruct o as [[c|]|[c|]|[c|]|cycle closed]; cbn [step_engine]; try done.
  - intros s u m. cbn. destruct (decide (sid c = s)) as [<-|Hs].
    + rewrite lookup_insert_eq. intros [= <-].
      destruct (decide (uid c = u)) as [<-|Hu].
      * by rewrite lookup_insert_eq.
      * rewrite lookup_insert_ne by done.
        destruct (clients e !! sid c) as [m'|] eqn:Hm; cbn.
        -- by eapply Hn.
        -- by rewrite lookup_empty.
    + rewrite lookup_insert_ne by done. apply Hn.
  - unfold after_removal.
    destruct (lookup_client e (sid c) (uid c)) as [[c'|] []]; try done.
    intros s u m. cbn. rewrite lookup_alter. case_decide as Hs; [|apply Hn].
    subst s. destruct (clients e !! sid c') as [m'|] eqn:Hm; [|done].
    cbn. intros [= <-] [_ Hu]%lookup_delete_Some. by eapply Hn.
  - unfold after_removal.
    destruct (lookup_client e (sid c) (uid c)) as [[c'|] []]; try done.
    intros s u m. cbn. rewrite lookup_alter. case_decide as Hs; [|apply Hn].
    subst s. destruct (clients e !! sid c') as [m'|] eqn:Hm; [|done].
    cbn. intros [= <-] [_ Hu]%lookup_delete_Some. by eapply Hn.
Qed.

Lemma no_nil_run_ops ops e w : no_nil_entries e → no_nil_entries (run_ops ops e w).1.1.
Proof.
  revert e w. induction ops as [|o ops IH]; intros e w Hn; [done|].
  rewrite run_ops_cons. by apply IH, no_nil_step_engine.
Qed.

Lemma cfg_step_engine o e : cfg (step_engine o e) = cfg e.
Proof.
  destruct o as [[c|]|[c|]|[c|]|cycle closed]; cbn [step_engine]; try done;
    unfold after_removal;
    by destruct (lookup_client e (sid c) (uid c)) as [[c'|] []].
Qed.

(** X7: in an engine built from a new one by any sequence of
    [AddClient], [DelClient], [RemoveClient] and turns of [Stats], with
    any arguments, every stored pointer is non-nil and filed under the
    [sid] and [uid] of its client, and the configuration is the one
    [NewEngine] was given. *)
Theorem engines_from_NewEngine (cfg0 : Config) (ops : list op) (w : World) :
  let e := (run_ops ops (NewEngine cfg0) w).1.1 in
  keyed e ∧ no_nil_entries e ∧ cfg e = cfg0.
Proof.
  intros e. split_and!.
  - apply keyed_run_ops, keyed_NewEngine.
  - apply no_nil_run_ops. intros s u m. unfold NewEngine; cbn.
    by rewrite lookup_empty.
  - assert (Hall : ∀ e1 w1, cfg (run_ops ops e1 w1).1.1 = cfg e1).
    { clear e. induction ops as [|o ops IH]; intros e1 w1; [done|].
      by rewrite run_ops_cons, IH, cfg_step_engine. }
    unfold e. by rewrite Hall.
Qed.

(** A turn of the loop that finds the channel open: it continues, with
    the engine as it was, sleeping once unless the registry is empty. *)
Lemma open_turn_run cycle e w :
  ∃ w' tr,
    Stats_iteration cycle false e w = mkRun (Returned Continue) e w' tr
    ∧ sleeps tr = if decide (clients e = ∅) then [] else [int_mul cycle second].
Proof.
  destruct (decide (clients e = ∅)) as [He|He].
  - exists w, [RLock; RUnlock]. by rewrite empty_turn_run.
  - rewrite Stats_iteration_run_range by done. cbn zeta. eexists _, _.
    split; [done|]. unfold sleeps. cbn [omap list_omap].
    rewrite omap_app. fold (sleeps (sample_events cycle
      (omap id (visited (range _ (clients e))))
      (sample_all cycle (omap id (visited (range _ (clients e)))) w).1)).
    by rewrite sleeps_sample_events.
Qed.

Lemma Stats_unroll_open fuel cycle close i e w w' tr :
  close i = false →
  Stats_iteration cycle false e w = mkRun (Returned Continue) e w' tr →
  Stats (S fuel) cycle close i e w = prefix tr (Stats fuel cycle close (S i) e w').
Proof. intros Hc Hturn. cbn [Stats]. by rewrite bind_run, Hc, Hturn. Qed.

Lemma Stats_unroll_closed fuel cycle close i e w :
  close i = true →
  Stats (S fuel) cycle close i e w = mkRun (Returned (Some "")) e w [].
Proof. intros Hc. cbn [Stats]. by rewrite bind_run, Hc. Qed.

Lemma out_prefix {A} tr (r : run A) : out (prefix tr r) = out r.
Proof. by destruct r. Qed.

Lemma engine_prefix {A} tr (r : run A) : engine (prefix tr r) = engine r.
Proof. by destruct r. Qed.

Lemma events_prefix {A} tr (r : run A) : events (prefix tr r) = tr ++ events r.
Proof. by destruct r. Qed.

(** X8: the [Stats] loop stops at the first turn that sees the [close]
    channel ready: if that is the turn after [n] turns that saw it not
    ready, the loop returns the empty string with the engine as it was,
    having slept [n] times for [cycle] seconds each, or not at all when
    the registry is empty. *)
Theorem Stats_returns_after_close (cycle : Z) (close : nat → bool) (e : Engine)
  (n i fuel : nat) (w : World) :
  (∀ j, (j < n)%nat → close (i + j)%nat = false) →
  close (i + n)%nat = true →
  (n < fuel)%nat →
  let r := Stats fuel cycle close i e w in
  out r = Returned (Some "")
  ∧ engine r = e
  ∧ sleeps (events r)
    = if decide (clients e = ∅) then [] else replicate n (int_mul cycle second).
Proof.
  revert i fuel w. induction n as [|n IH]; intros i fuel w Hopen Hclosed Hfuel r.
  - destruct fuel as [|fuel]; [lia|]. unfold r.
    rewrite Stats_unroll_closed by by rewrite <- (Nat.add_0_r i).
    by destruct (decide (clients e = ∅)).
  - destruct fuel as [|fuel]; [lia|]. unfold r.
    destruct (open_turn_run cycle e w) as (w' & tr & Hturn & Hsl).
    rewrite (Stats_unroll_open fuel cycle close i e w w' tr);
      [|rewrite <- (Nat.add_0_r i); apply Hopen; lia|done].
    rewrite out_prefix, engine_prefix, events_prefix.
    destruct (IH (S i) fuel w') as (Hout & Heng & Hsleeps).
    + intros j Hj. replace (S i + j)%nat with (i + S j)%nat by lia.
      apply Hopen. lia.
    + by replace (S i + n)%nat with (i + S n)%nat by lia.
    + lia.
    + split_and!; [done..|]. unfold sleeps in *. rewrite omap_app, Hsl, Hsleeps.
      by destruct (decide (clients e = ∅)).
Qed.

(** X9: while the registry is empty and the channel is not ready, the
    loop goes from turn to turn without a pause: after [fuel] turns it is
    still running and its whole trace is [fuel] times [RLock], [RUnlock],
    with no sleep and no log line. *)
Theorem Stats_busy_polls_empty_registry (cycle : Z) (close : nat → bool)
  (e : Engine) (fuel i : nat) (w : World) :
  clients e = ∅ →
  (∀ j, (j < fuel)%nat → close (i + j)%nat = false) →
  Stats fuel cycle close i e w
  = mkRun (Returned None) e w (mjoin (replicate fuel [RLock; RUnlock])).
Proof.
  intros He. revert i. induction fuel as [|fuel IH]; intros i Hopen; [done|].
  rewrite (Stats_unroll_open fuel cycle close i e w w [RLock; RUnlock]);
    [|rewrite <- (Nat.add_0_r i); apply Hopen; lia|by apply empty_turn_run].
  rewrite IH; [done|]. intros j Hj.
  replace (S i + j)%nat with (i + S j)%nat by lia. apply Hopen. lia.
Qed.


(** X11: two [AddClient] calls with clients of different keys commute:
    either order leaves the same engine, so neither addition is lost. *)
Theorem AddClient_commutes (e : Engine) (w : World) (c1 c2 : Client) :
  (sid c1, uid c1) ≠ (sid c2, uid c2) →
  engine (AddClient (Some c2) (engine (AddClient (Some c1) e w)) w)
  = engine (AddClient (Some c1) (engine (AddClient (Some c2) e w)) w).
Proof.
  intros Hne. rewrite !AddClient_run. cbn [engine]. unfold set_clients. cbn.
  f_equal. destruct (decide (sid c1 = sid c2)) as [Hs|Hs].
  - assert (Hu : uid c1 ≠ uid c2) by (intros Hu; apply Hne; congruence).
    rewrite <- Hs, !lookup_insert_eq. cbn. rewrite !insert_insert_eq.
    f_equal. by rewrite insert_insert_ne.
  - rewrite !lookup_insert_ne by done. by rewrite insert_insert_ne.
Qed.

Lemma sizes_insert_Some (M : gmap string (gmap string (option Client))) s m m' :
  M !! s = Some m →
  Zsum (len <$> (map_to_list (<[s := m']> M)).*2)
  = Zsum (len <$> (map_to_list M).*2) - len m + len m'.
Proof.
  intros Hs. rewrite <- insert_delete_eq.
  rewrite map_to_list_insert by by rewrite lookup_delete_eq.
  rewrite <- (map_to_list_delete M s m Hs).
  generalize (map_to_list (delete s M)). intros L. unfold Zsum. cbn. lia.
Qed.

Lemma sizes_insert_None (M : gmap string (gmap string (option Client))) s m' :
  M !! s = None →
  Zsum (len <$> (map_to_list (<[s := m']> M)).*2)
  = Zsum (len <$> (map_to_list M).*2) + len m'.
Proof.
  intros Hs. rewrite map_to_list_insert by done.
  generalize (map_to_list M). intros L. unfold Zsum. cbn. lia.
Qed.

Lemma len_insert {V} (m : gmap string V) u x :
  len (<[u := x]> m) = len m + match m !! u with Some _ => 0 | None => 1 end.
Proof. unfold len. rewrite map_size_insert. destruct (m !! u); cbn; lia. Qed.

Lemma len_delete_Some {V} (m : gmap string V) u x :
  m !! u = Some x → len (delete u m) = len m - 1.
Proof.
  intros Hu. unfold len.
  rewrite <- (insert_id m u x Hu) at 2. rewrite <- insert_delete_eq.
  rewrite map_size_insert_None by by rewrite lookup_delete_eq. lia.
Qed.

(** X12: [AddClient] with a non-nil client raises the sum of the sizes
    of the inner maps, the client count [Stats] reports, by one when the
    key of the client was not bound, and leaves it as it was when the
    call overwrites an entry. *)
Theorem count_after_AddClient (e : Engine) (w : World) (c : Client) :
  total_len (engine (AddClient (Some c) e w))
  = total_len e + if (lookup_client e (sid c) (uid c)).2 then 0 else 1.
Proof.
  rewrite AddClient_run. unfold total_len, lookup_client. cbn [engine clients set_clients].
  destruct (clients e !! sid c) as [m|] eqn:Hs; cbn [default from_option id].
  - rewrite (sizes_insert_Some _ _ m) by done. rewrite len_insert.
    destruct (m !! uid c); cbn [snd]; lia.
  - rewrite sizes_insert_None by done. rewrite len_insert, lookup_empty.
    unfold len. rewrite map_size_empty. cbn [snd]. lia.
Qed.

(** X13: removing, with either removal, a client stored under its own
    identifiers lowers the sum of the sizes of the inner maps by one. *)
Theorem count_after_removal (e : Engine) (w : World) (c stored : Client)
  (m : gmap string (option Client)) :
  clients e !! sid c = Some m →
  m !! uid c = Some (Some stored) →
  sid stored = sid c →
  uid stored = uid c →
  total_len (engine (RemoveClient (Some c) e w)) = total_len e - 1
  ∧ total_len (engine (DelClient (Some c) e w)) = total_len e - 1.
Proof.
  intros Hs Hu Hsid Huid.
  assert (Hl : lookup_client e (sid c) (uid c) = (Some stored, true)).
  { unfold lookup_client. by rewrite Hs, Hu. }
  assert (Hlen : total_len (after_removal e c) = total_len e - 1).
  { unfold after_removal, total_len. rewrite Hl, Hsid, Huid. cbn [clients set_clients].
    rewrite (alter_lookup_insert _ _ _ m) by done.
    rewrite (sizes_insert_Some _ _ m) by done.
    rewrite (len_delete_Some m _ (Some stored)) by done. lia. }
  rewrite RemoveClient_run, DelClient_run, Hs, Hl. done.
Qed.

Lemma total_len_entries e : total_len e = Z.of_nat (length (entries e)).
Proof.
  unfold total_len, entries.
  induction (map_to_list (clients e)).*2 as [|m ms IH]; [done|].
  cbn. rewrite length_app, length_fmap, length_map_to_list.
  fold (Zsum (len <$> ms)). unfold len at 1. lia.
Qed.

Lemma no_nil_entries_Forall e : no_nil_entries e → Forall is_Some (entries e).
Proof.
  intros Hn. apply Forall_forall. intros x Hx. unfold entries in Hx.
  apply list_elem_of_bind in Hx as (m & Hx & Hm).
  apply list_elem_of_fmap in Hm as ([s m'] & -> & Hm).
  apply list_elem_of_fmap in Hx as ([u x'] & -> & Hx).
  apply elem_of_map_to_list in Hm, Hx. cbn in *.
  destruct x' as [c|]; [by eexists|]. by destruct (Hn s u m' Hm).
Qed.

Lemma length_omap_id_le {A} (l : list (option A)) :
  (length (omap id l) ≤ length l)%nat.
Proof. induction l as [|[x|] l IH]; cbn; lia. Qed.

Lemma length_omap_id_Forall {A} (l : list (option A)) :
  Forall is_Some l → length (omap id l) = length l.
Proof. induction 1 as [|? l [x ->] _ IH]; cbn; [done|]. by rewrite IH. Qed.

Lemma sampled_sample_events cycle cs smp :
  length smp = length cs → sampled_clients (sample_events cycle cs smp) = cs.
Proof.
  unfold sample_events, sampled_clients. revert smp.
  induction cs as [|c cs IH]; intros [|bw smp] Hlen; cbn in *; try done.
  f_equal. apply IH. lia.
Qed.

(** What the trace of a turn on a registry that has a session shows:
    the one line logged and the clients sampled. *)
Lemma turn_trace_read cycle e w :
  clients e ≠ ∅ →
  let cs := omap id (visited (range _ (clients e))) in
  let s := sample_all cycle cs w in
  logged (events (Stats_iteration cycle false e w))
  = [report (int_wrap (Zsum (len <$> (range _ (clients e)).*2)))
       (int_wrap (Zsum s.1.*1)) (int_wrap (Zsum s.1.*2))]
  ∧ sampled_clients (events (Stats_iteration cycle false e w)) = cs.
Proof.
  intros Hne cs s. rewrite Stats_iteration_run_range by done.
  cbn zeta. cbn [events]. fold cs. fold s. split.
  - unfold logged. cbn [omap list_omap]. rewrite omap_app.
    fold (logged (sample_events cycle cs s.1)).
    by rewrite logged_sample_events.
  - unfold sampled_clients. cbn [omap list_omap]. rewrite omap_app.
    fold (sampled_clients (sample_events cycle cs s.1)).
    rewrite sampled_sample_events by apply sample_all_length.
    cbn. by rewrite app_nil_r.
Qed.

Lemma int_wrap_small (z : Z) :
  - 2 ^ (int_bits - 1) ≤ z < 2 ^ (int_bits - 1) → int_wrap z = z.
Proof.
  unfold int_wrap, int_bits. cbn. intros Hz.
  rewrite Z.mod_small by lia. lia.
Qed.

(** X15: a turn of [Stats] on a registry that has a session sleeps
    once, after its log line, and for exactly [cycle] seconds when
    [cycle] is between 0 and 9223372036, the largest number of seconds
    whose nanoseconds fit in a [time.Duration]. *)
Theorem sleep_of_a_turn (e : Engine) (w : World) (cycle : Z) :
  clients e ≠ ∅ →
  0 ≤ cycle ≤ 9223372036 →
  sleeps (events (Stats_iteration cycle false e w)) = [cycle * 1000000000]
  ∧ ∃ tr msg, events (Stats_iteration cycle false e w)
              = tr ++ [log_Infof msg; time_Sleep (cycle * 1000000000)].
Proof.
  intros Hne Hc.
  assert (Hd : int_mul cycle second = cycle * 1000000000).
  { unfold int_mul, second. apply int_wrap_small. unfold int_bits. cbn. lia. }
  rewrite Stats_iteration_run_range by done. cbn zeta. cbn [events]. rewrite Hd.
  split.
  - unfold sleeps. cbn [omap list_omap]. rewrite omap_app.
    fold (sleeps (sample_events cycle
      (omap id (visited (range _ (clients e))))
      (sample_all cycle (omap id (visited (range _ (clients e)))) w).1)).
    by rewrite sleeps_sample_events.
  - eexists (RLock :: _ ++ [RUnlock]), _. cbn. by rewrite <- (assoc_L (++)).
Qed.


Section order_independence.

Hypothesis range_perm : ∀ V (m : gmap string V), range V m ≡ₚ map_to_list m.

(** X10: when the figures a client reports do not depend on when it is
    asked, the one line a turn of [Stats] logs on a registry that has a
    session does not depend on the order in which the maps are visited:
    it reports the number of keys and the two sums over the clients of
    the registry, in [int] arithmetic. *)
Theorem report_independent_of_order (e : Engine) (w : World) (cycle : Z)
  (f : Client → Z * Z) :
  clients e ≠ ∅ →
  (∀ c w', c ∈ stored_clients e → (getBandWidth c cycle w').1 = f c) →
  logged (events (Stats_iteration cycle false e w))
  = [report (int_wrap (total_len e))
       (int_wrap (Zsum (f <$> stored_clients e).*1))
       (int_wrap (Zsum (f <$> stored_clients e).*2))].
Proof.
  intros Hne Hf. rewrite Stats_iteration_run by done. cbn zeta. cbn [events].
  assert (Hcs : omap id (visited (range _ (clients e))) ≡ₚ stored_clients e).
  { unfold stored_clients. by rewrite (visited_range_entries range_perm). }
  rewrite (sample_all_const cycle f)
    by (intros c w' Hc; apply Hf; by rewrite <- Hcs).
  unfold logged. cbn [omap list_omap]. rewrite omap_app.
  fold (logged (sample_events cycle (omap id (visited (range _ (clients e))))
                  (f <$> omap id (visited (range _ (clients e)))))).
  rewrite logged_sample_events. cbn. by rewrite !Hcs.
Qed.

(** X16: when the figures a client reports do not depend on when it is
    asked, and the number of keys and the two sums of the figures fit in
    an [int], the line a turn of [Stats] logs on a registry that has a
    session states exactly those three numbers, whatever the order in
    which the maps are visited. *)
Theorem report_exact_when_sums_fit (e : Engine) (w : World) (cycle : Z)
  (f : Client → Z * Z) :
  clients e ≠ ∅ →
  (∀ c w', c ∈ stored_clients e → (getBandWidth c cycle w').1 = f c) →
  total_len e < 2 ^ 63 →
  - 2 ^ 63 ≤ Zsum (f <$> stored_clients e).*1 < 2 ^ 63 →
  - 2 ^ 63 ≤ Zsum (f <$> stored_clients e).*2 < 2 ^ 63 →
  logged (events (Stats_iteration cycle false e w))
  = [report (total_len e)
       (Zsum (f <$> stored_clients e).*1) (Zsum (f <$> stored_clients e).*2)].
Proof.
  intros Hne Hf Hn Hr Hs. rewrite Stats_iteration_run by done. cbn zeta. cbn [events].
  assert (Hcs : omap id (visited (range _ (clients e))) ≡ₚ stored_clients e).
  { unfold stored_clients. by rewrite (visited_range_entries range_perm). }
  rewrite (sample_all_const cycle f)
    by (intros c w' Hc; apply Hf; by rewrite <- Hcs).
  unfold logged. cbn [omap list_omap]. rewrite omap_app.
  fold (logged (sample_events cycle (omap id (visited (range _ (clients e))))
                  (f <$> omap id (visited (range _ (clients e)))))).
  rewrite logged_sample_events. cbn [app omap list_omap]. rewrite !Hcs.
  rewrite !int_wrap_small; [done|done|done|].
  split; [|done]. pose proof (total_len_entries e). unfold int_bits. lia.
Qed.

(** X14: on a registry that has a session, the client count in the
    line a turn of [Stats] logs is the number of keys of the registry,
    nil entries included, while the clients the turn calls
    [getBandWidth] on are the non-nil ones, so the count is never below
    the number of clients sampled. In an engine built from a new one by
    the operations the count logged is the number of clients sampled. *)
Theorem count_and_sampled_clients :
  (∀ e w cycle,
     clients e ≠ ∅ →
     let tr := events (Stats_iteration cycle false e w) in
     sampled_clients tr ≡ₚ stored_clients e
     ∧ Z.of_nat (length (sampled_clients tr)) ≤ Z.of_nat (length (entries e))
     ∧ ∃ r s, logged tr = [report (int_wrap (Z.of_nat (length (entries e)))) r s])
  ∧ (∀ cfg0 ops w0 w cycle,
       let e := (run_ops ops (NewEngine cfg0) w0).1.1 in
       clients e ≠ ∅ →
       let tr := events (Stats_iteration cycle false e w) in
       ∃ r s, logged tr
              = [report (int_wrap (Z.of_nat (length (sampled_clients tr)))) r s]).
Proof.
  assert (Hgen : ∀ e w cycle,
     clients e ≠ ∅ →
     let tr := events (Stats_iteration cycle false e w) in
     sampled_clients tr ≡ₚ stored_clients e
     ∧ Z.of_nat (length (sampled_clients tr)) ≤ Z.of_nat (length (entries e))
     ∧ ∃ r s, logged tr = [report (int_wrap (Z.of_nat (length (entries e)))) r s]).
  { intros e w cycle Hne tr.
    destruct (turn_trace_read cycle e w Hne) as [Hlog Hsam]. fold tr in Hlog, Hsam.
    assert (Hperm : sampled_clients tr ≡ₚ stored_clients e).
    { rewrite Hsam. unfold stored_clients.
      by rewrite (visited_range_entries range_perm). }
    split_and!; [done| |].
    - rewrite Hperm. unfold stored_clients. apply inj_le, length_omap_id_le.
    - eexists _, _. by rewrite Hlog, (range_total_len range_perm), total_len_entries. }
  split; [done|]. intros cfg0 ops w0 w cycle e Hne tr.
  destruct (Hgen e w cycle Hne) as (Hperm & _ & r & s & Hlog). fold tr in Hperm, Hlog.
  exists r, s. rewrite Hlog, Hperm. unfold stored_clients.
  rewrite length_omap_id_Forall; [done|].
  apply no_nil_entries_Forall, no_nil_run_ops.
  intros s' u m. unfold NewEngine; cbn. by rewrite lookup_empty.
Qed.

End order_independence.

End Engine.

Arguments Engine Config : clear implicits.
Arguments mkEngine {Config} cfg clients stats.
Arguments cfg {Config} e.
Arguments clients {Config} e.
Arguments stats {Config} e.
Arguments run Config World A : clear implicits.
Arguments mkRun {Config World A} out engine world events.
Arguments out {Config World A} r.
Arguments engine {Config World A} r.
Arguments world {Config World A} r.
Arguments events {Config World A} r.

(** ** The properties at work on concrete registries *)

Lemma example_range_perm V (m : gmap string V) : example_range V m ≡ₚ map_to_list m.
Proof. reflexivity. Qed.

Example report_example :
  report 3 30 20 = "
-------stats-------
Clients: 3
RecvBandWidth: 30 KB/s
SendBandWidth: 20 KB/s
".
Proof. reflexivity. Qed.

(** In the example registry a turn of the [Stats] loop calls
    [getBandWidth] with the read lock held. *)
Lemma Stats_samples_under_lock_counterexample :
  ¬ no_call_under_lock
      (events (Stats_iteration example_getBandWidth example_range 1 false
                 (mkEngine tt example_clients (stat.mk 0 0 0)) [])).
Proof. by vm_compute. Qed.

(** [DelClient] called twice with another pointer that carries the key
    of the first client of session A, on the registry the three
    additions of the aggregation example build. *)
Lemma DelClient_closes_once_witness :
  let ops := [opAddClient (Some example_c1); opAddClient (Some example_c2);
              opAddClient (Some example_c3)] in
  let e := (run_ops example_getBandWidth example_Close example_range
              ops (NewEngine tt) []).1.1 in
  let c := mkClient 9 "A" "c1" in
  let r1 := DelClient example_Close (Some c) e [] in
  lookup_client e (sid c) (uid c) = (Some example_c1, true)
  ∧ out r1 = Returned None
  ∧ events r1 = [Lock; Unlock; call_Close example_c1]
  ∧ world r1 = [example_c1]
  ∧ DelClient example_Close (Some c) (engine r1) (world r1)
    = mkRun (Returned None) (engine r1) (world r1) [Lock; Unlock]
  ∧ removes_and_closes_once example_Close e [] c example_c1.
Proof.
  intros ops e c r1.
  assert (H1 : lookup_client e (sid c) (uid c) = (Some example_c1, true))
    by (vm_compute; reflexivity).
  pose proof (DelClient_closes_once example_getBandWidth example_Close
                example_range tt ops [] [] c example_c1 H1)
    as (Hout & Hev & Hw & _ & Hsecond & Honce).
  split; [exact H1|]. split; [exact Hout|]. split; [exact Hev|].
  split; [exact Hw|]. split; [exact Hsecond|exact Honce].
Defined.

(** Removing from a new engine a client whose session it has never seen. *)
Lemma unknown_session_rejected_witness :
  let e := NewEngine tt in
  clients e !! sid example_c1 = None
  ∧ DelClient example_Close (Some example_c1) e []
    = mkRun (Returned (Some errInvalidSessID)) e [] [Lock; Unlock]
  ∧ RemoveClient (Some example_c1) e ([] : list Client)
    = mkRun (Returned (Some errInvalidSessID)) e [] [Lock; Unlock].
Proof.
  intros e.
  assert (H1 : clients e !! sid example_c1 = None) by (vm_compute; reflexivity).
  split; [exact H1|].
  exact (unknown_session_rejected example_Close e [] example_c1 H1).
Defined.

(** The aggregation example of the specification. *)
Lemma Stats_aggregates_witness :
  let e := mkEngine tt example_clients (stat.mk 0 0 0) in
  clients e ≠ ∅
  ∧ (∃ cs, cs ≡ₚ stored_clients e ∧
       let s := sample_all example_getBandWidth 1 cs [] in
       Stats_iteration example_getBandWidth example_range 1 false e [] =
       mkRun (Returned Continue) e s.2
         (RLock :: sample_events 1 cs s.1
            ++ [RUnlock;
                log_Infof (report (int_wrap (total_len e))
                             (int_wrap (Zsum s.1.*1)) (int_wrap (Zsum s.1.*2)));
                time_Sleep (int_mul 1 second)]))
  ∧ (∃ w' calls,
       Forall (λ ev, ∃ c, ev = call_getBandWidth c 1
                                 (example_sample c).1 (example_sample c).2) calls
       ∧ Stats_iteration example_getBandWidth example_range 1 false e [] =
         mkRun (Returned Continue) e w'
           (RLock :: calls
              ++ [RUnlock; log_Infof (report 3 30 20);
                  time_Sleep (int_mul 1 second)])).
Proof.
  intros e.
  assert (Hne : clients e ≠ ∅).
  { intros He. apply (f_equal (λ m, m !! "A")) in He. vm_compute in He. discriminate. }
  pose proof (Stats_aggregates (Config := unit) example_getBandWidth
                example_range example_range_perm) as [Hgen Hex].
  split; [exact Hne|]. split.
  - exact (Hgen e [] 1 Hne).
  - exact (Hex tt (stat.mk 0 0 0) [] 1 (λ c w' _, eq_refl)).
Defined.

(** Adding a second pointer under the key of the first client of
    session A. *)
Lemma AddClient_overwrites_witness :
  let e := mkEngine tt example_clients (stat.mk 0 0 0) in
  let c := mkClient 9 "A" "c1" in
  let m : gmap string (option Client) :=
    {[ "c1" := Some example_c1; "c2" := Some example_c2 ]} in
  (clients e !! sid c = Some m ∧ m !! uid c = Some (Some example_c1))
  ∧ AddClient (Some c) e ([] : list Client)
    = mkRun (Returned None)
        (set_clients (<[sid c := <[uid c := Some c]> m]> (clients e)) e)
        [] [Lock; Unlock]
  ∧ closed_clients (events (AddClient (Some c) e ([] : list Client))) = [].
Proof.
  intros e c m.
  assert (H1 : clients e !! sid c = Some m) by (vm_compute; reflexivity).
  assert (H2 : m !! uid c = Some (Some example_c1)) by (vm_compute; reflexivity).
  pose proof (AddClient_overwrites e ([] : list Client) c m (Some example_c1) H1 H2)
    as (Hrun & _ & Hclosed).
  split; [split; [exact H1|exact H2]|]. split; [exact Hrun|exact Hclosed].
Defined.

(** A turn of the loop on a new engine. *)
Lemma Stats_empty_skips_witness :
  let e := NewEngine tt in
  clients e = ∅
  ∧ Stats_iteration example_getBandWidth example_range 5 false e []
    = mkRun (Returned Continue) e [] [RLock; RUnlock].
Proof.
  intros e. split; [reflexivity|].
  exact (proj1 (Stats_empty_skips example_getBandWidth example_range e [] 5 eq_refl)).
Defined.

(** Session B is still a key after its only client has been removed and
    a turn of the loop has run. *)
Lemma session_key_never_removed_witness :
  let e := mkEngine tt example_clients (stat.mk 0 0 0) in
  let ops := [opDelClient (Some example_c3); opStats 1 false;
              opRemoveClient (Some example_c3)] in
  is_Some (clients e !! "B")
  ∧ is_Some (clients (run_ops example_getBandWidth example_Close example_range
                        ops e []).1.1 !! "B").
Proof.
  intros e ops.
  assert (H1 : is_Some (clients e !! "B")) by (vm_compute; eauto).
  split; [exact H1|].
  exact (proj1 (proj2 (session_key_never_removed (Config := unit)
                         example_getBandWidth example_Close example_range))
           ops e [] "B" H1).
Defined.

Lemma nil_beside_client_keyed cfg0 st :
  keyed (mkEngine (Config := unit) cfg0 nil_beside_client_clients st).
Proof.
  intros s u m x Hs Hm. cbn in Hs. unfold nil_beside_client_clients in Hs.
  apply lookup_singleton_Some in Hs as [<- <-].
  apply lookup_insert_Some in Hm as [[_ [=]]|[_ Hm]].
  by apply lookup_singleton_Some in Hm as [<- [= <-]].
Qed.

(** Removals, a nil argument and a turn of the loop on a registry that
    holds a nil entry beside a client. *)
Lemma nil_entry_never_removed_witness :
  let e := mkEngine tt nil_beside_client_clients (stat.mk 0 0 0) in
  let m : gmap string (option Client) :=
    {[ "c1" := None; "c2" := Some example_c2 ]} in
  let ops := [opDelClient (Some example_c2); opRemoveClient (Some example_c1);
              opDelClient None; opStats 1 false;
              opRemoveClient (Some example_c3)] in
  (clients e !! sid example_c1 = Some m ∧ m !! uid example_c1 = Some None)
  ∧ DelClient example_Close (Some example_c1) e []
    = mkRun (Returned None) e [] [Lock; Unlock]
  ∧ RemoveClient (Some example_c1) e ([] : list Client)
    = mkRun (Returned None) e [] [Lock; Unlock]
  ∧ lookup_client (run_ops example_getBandWidth example_Close example_range
                     ops e []).1.1 (sid example_c1) (uid example_c1)
    = (None, true).
Proof.
  intros e m ops.
  assert (H1 : clients e !! sid example_c1 = Some m) by (vm_compute; reflexivity).
  assert (H2 : m !! uid example_c1 = Some None) by (vm_compute; reflexivity).
  pose proof (nil_entry_never_removed example_getBandWidth example_Close
                example_range e [] example_c1 m H1 H2) as (Hdel & Hrem & _ & Hops).
  split; [split; [exact H1|exact H2]|]. split; [exact Hdel|]. split; [exact Hrem|].
  apply (Hops (nil_beside_client_keyed tt (stat.mk 0 0 0))).
  repeat (constructor; [reflexivity|]). constructor.
Defined.

(** The lock scope of the two operations on the example registry. *)
Lemma lock_scope_witness :
  let e := mkEngine tt example_clients (stat.mk 0 0 0) in
  (∀ V (m : gmap string V), example_range V m ≡ₚ map_to_list m)
  ∧ no_call_under_lock (events (DelClient example_Close (Some example_c1) e []))
  ∧ calls_outside_lock false
      (events (Stats_iteration example_getBandWidth example_range 1 false e []))
    = bool_decide (stored_clients e = []).
Proof.
  intros e.
  pose proof (lock_scope (Config := unit) example_getBandWidth example_Close
                example_range example_range_perm) as (Hdel & _ & Hstats).
  split; [exact example_range_perm|].
  split; [exact (Hdel (Some example_c1) e [])|exact (Hstats 1 e [])].
Defined.

(** ** The further properties on the example registry *)

Lemma example_clients_nonempty : example_clients ≠ ∅.
Proof.
  intros He. apply (f_equal (λ m, m !! "A")) in He. vm_compute in He. discriminate.
Qed.

(** Adding [example_c9] to session A and removing it again. *)
Lemma AddClient_then_removal_restores_witness :
  let e := mkEngine tt example_clients (stat.mk 0 0 0) in
  let m : gmap string (option Client) :=
    {[ "c1" := Some example_c1; "c2" := Some example_c2 ]} in
  let e1 := engine (AddClient (Some example_c9) e ([] : list Client)) in
  (clients e !! sid example_c9 = Some m ∧ m !! uid example_c9 = None)
  ∧ RemoveClient (Some example_c9) e1 ([] : list Client)
    = mkRun (Returned None) e [] [Lock; Unlock]
  ∧ DelClient example_Close (Some example_c9) e1 []
    = mkRun (Returned None) e [example_c9] [Lock; Unlock; call_Close example_c9].
Proof.
  intros e m e1.
  assert (H1 : clients e !! sid example_c9 = Some m) by (vm_compute; reflexivity).
  assert (H2 : m !! uid example_c9 = None) by (vm_compute; reflexivity).
  split; [split; [exact H1|exact H2]|].
  exact (AddClient_then_removal_restores example_Close e [] example_c9 m H1 H2).
Defined.

(** Removing [example_c9], which session A does not hold. *)
Lemma removal_of_unbound_key_witness :
  let e := mkEngine tt example_clients (stat.mk 0 0 0) in
  let m : gmap string (option Client) :=
    {[ "c1" := Some example_c1; "c2" := Some example_c2 ]} in
  (clients e !! sid example_c9 = Some m ∧ m !! uid example_c9 = None)
  ∧ DelClient example_Close (Some example_c9) e []
    = mkRun (Returned None) e [] [Lock; Unlock]
  ∧ RemoveClient (Some example_c9) e ([] : list Client)
    = mkRun (Returned None) e [] [Lock; Unlock].
Proof.
  intros e m.
  assert (H1 : clients e !! sid example_c9 = Some m) by (vm_compute; reflexivity).
  assert (H2 : m !! uid example_c9 = None) by (vm_compute; reflexivity).
  split; [split; [exact H1|exact H2]|].
  exact (removal_of_unbound_key example_Close e [] example_c9 m H1 H2).
Defined.

(** The loop on the example registry, cancelled before its third turn. *)
Lemma Stats_returns_after_close_witness :
  let e := mkEngine tt example_clients (stat.mk 0 0 0) in
  let r := Stats example_getBandWidth example_range 5 1 example_close 0 e [] in
  ((∀ j, (j < 2)%nat → example_close (0 + j) = false)
   ∧ example_close (0 + 2) = true ∧ (2 < 5)%nat)
  ∧ out r = Returned (Some "")
  ∧ engine r = e
  ∧ sleeps (events r)
    = if decide (clients e = ∅) then [] else replicate 2 (int_mul 1 second).
Proof.
  intros e r.
  assert (H1 : ∀ j, (j < 2)%nat → example_close (0 + j) = false).
  { intros j Hj. destruct j as [|[|j]]; [reflexivity|reflexivity|lia]. }
  assert (H3 : (2 < 5)%nat) by lia.
  split; [split; [exact H1|split; [reflexivity|exact H3]]|].
  exact (Stats_returns_after_close example_getBandWidth example_range
           1 example_close e 2 0 5 [] H1 eq_refl H3).
Defined.

(** Three turns of the loop on a new engine. *)
Lemma Stats_busy_polls_empty_registry_witness :
  let e := NewEngine tt in
  (clients e = ∅ ∧ ∀ j, (j < 3)%nat → (λ _ : nat, false) (0 + j)%nat = false)
  ∧ Stats example_getBandWidth example_range 3 1 (λ _, false) 0 e []
    = mkRun (Returned None) e []
        [RLock; RUnlock; RLock; RUnlock; RLock; RUnlock].
Proof.
  intros e.
  split; [split; [reflexivity|intros j _; reflexivity]|].
  exact (Stats_busy_polls_empty_registry example_getBandWidth example_range
           1 (λ _, false) e 3 0 [] eq_refl (λ j _, eq_refl)).
Defined.

(** The line logged for the example registry. *)
Lemma report_independent_of_order_witness :
  let e := mkEngine tt example_clients (stat.mk 0 0 0) in
  (clients e ≠ ∅
   ∧ ∀ c (w' : list Client), c ∈ stored_clients e →
       (example_getBandWidth c 1 w').1 = example_sample c)
  ∧ logged (events (Stats_iteration example_getBandWidth example_range 1 false e []))
    = [report (int_wrap (total_len e))
         (int_wrap (Zsum (example_sample <$> stored_clients e).*1))
         (int_wrap (Zsum (example_sample <$> stored_clients e).*2))].
Proof.
  intros e.
  split; [split; [exact example_clients_nonempty|intros c w' _; reflexivity]|].
  exact (report_independent_of_order example_getBandWidth example_range
           example_range_perm e [] 1 example_sample
           example_clients_nonempty (λ c w' _, eq_refl)).
Defined.

Lemma report_exact_when_sums_fit_witness :
  let e := mkEngine tt example_clients (stat.mk 0 0 0) in
  (clients e ≠ ∅
   ∧ total_len e < 2 ^ 63
   ∧ - 2 ^ 63 ≤ Zsum (example_sample <$> stored_clients e).*1 < 2 ^ 63
   ∧ - 2 ^ 63 ≤ Zsum (example_sample <$> stored_clients e).*2 < 2 ^ 63)
  ∧ logged (events (Stats_iteration example_getBandWidth example_range 1 false e []))
    = [report 3 30 20].
Proof.
  intros e.
  assert (Hn : total_len e = 3) by (vm_compute; reflexivity).
  assert (Hr : Zsum (example_sample <$> stored_clients e).*1 = 30)
    by (vm_compute; reflexivity).
  assert (Hs : Zsum (example_sample <$> stored_clients e).*2 = 20)
    by (vm_compute; reflexivity).
  assert (H1 : total_len e < 2 ^ 63) by (rewrite Hn; lia).
  assert (H2 : - 2 ^ 63 ≤ Zsum (example_sample <$> stored_clients e).*1 < 2 ^ 63)
    by (rewrite Hr; lia).
  assert (H3 : - 2 ^ 63 ≤ Zsum (example_sample <$> stored_clients e).*2 < 2 ^ 63)
    by (rewrite Hs; lia).
  split; [split; [exact example_clients_nonempty|split; [exact H1|split; [exact H2|exact H3]]]|].
  rewrite <- Hn at 1. rewrite <- Hr at 1. rewrite <- Hs at 1.
  exact (report_exact_when_sums_fit example_getBandWidth example_range
           example_range_perm e [] 1 example_sample
           example_clients_nonempty (λ c w' _, eq_refl) H1 H2 H3).
Defined.

(** Adding two clients of session A in either order. *)
Lemma AddClient_commutes_witness :
  let e := NewEngine tt in
  (sid example_c1, uid example_c1) ≠ (sid example_c2, uid example_c2)
  ∧ engine (AddClient (Some example_c2)
              (engine (AddClient (Some example_c1) e ([] : list Client)))
              ([] : list Client))
    = engine (AddClient (Some example_c1)
                (engine (AddClient (Some example_c2) e ([] : list Client)))
                ([] : list Client)).
Proof.
  intros e.
  assert (H1 : (sid example_c1, uid example_c1) ≠ (sid example_c2, uid example_c2))
    by (intros H; discriminate H).
  split; [exact H1|].
  exact (AddClient_commutes e ([] : list Client) example_c1 example_c2 H1).
Defined.

(** Removing the first client of session A from the example registry. *)
Lemma count_after_removal_witness :
  let e := mkEngine tt example_clients (stat.mk 0 0 0) in
  let m : gmap string (option Client) :=
    {[ "c1" := Some example_c1; "c2" := Some example_c2 ]} in
  (clients e !! sid example_c1 = Some m
   ∧ m !! uid example_c1 = Some (Some example_c1))
  ∧ total_len (engine (RemoveClient (Some example_c1) e ([] : list Client)))
    = total_len e - 1
  ∧ total_len (engine (DelClient example_Close (Some example_c1) e []))
    = total_len e - 1.
Proof.
  intros e m.
  assert (H1 : clients e !! sid example_c1 = Some m) by (vm_compute; reflexivity).
  assert (H2 : m !! uid example_c1 = Some (Some example_c1))
    by (vm_compute; reflexivity).
  split; [split; [exact H1|exact H2]|].
  exact (count_after_removal example_Close e [] example_c1 example_c1 m
           H1 H2 eq_refl eq_refl).
Defined.

(** A turn with a cycle of five seconds. *)
Lemma sleep_of_a_turn_witness :
  let e := mkEngine tt example_clients (stat.mk 0 0 0) in
  (clients e ≠ ∅ ∧ 0 ≤ 5 ≤ 9223372036)
  ∧ sleeps (events (Stats_iteration example_getBandWidth example_range 5 false e []))
    = [5000000000].
Proof.
  intros e.
  assert (H2 : 0 ≤ 5 ≤ 9223372036) by lia.
  split; [split; [exact example_clients_nonempty|exact H2]|].
  exact (proj1 (sleep_of_a_turn example_getBandWidth example_range e [] 5
                  example_clients_nonempty H2)).
Defined.

(** A turn of the loop on the registry three additions build. *)
Lemma count_and_sampled_clients_witness :
  let ops := [opAddClient (Some example_c1); opAddClient (Some example_c2);
              opAddClient (Some example_c3)] in
  let e := (run_ops example_getBandWidth example_Close example_range
              ops (NewEngine tt) []).1.1 in
  let tr := events (Stats_iteration example_getBandWidth example_range 1 false e []) in
  ((∀ V (m : gmap string V), example_range V m ≡ₚ map_to_list m) ∧ clients e ≠ ∅)
  ∧ sampled_clients tr ≡ₚ stored_clients e
  ∧ ∃ r s, logged tr
           = [report (int_wrap (Z.of_nat (length (sampled_clients tr)))) r s].
Proof.
  intros ops e tr.
  assert (Hne : clients e ≠ ∅).
  { intros He. apply (f_equal (λ m, m !! "A")) in He. vm_compute in He. discriminate. }
  pose proof (count_and_sampled_clients (Config := unit) example_getBandWidth
                example_Close example_range example_range_perm) as [Hgen Hbuilt].
  split; [split; [exact example_range_perm|exact Hne]|].
  split.
  - exact (proj1 (Hgen e [] 1 Hne)).
  - exact (Hbuilt tt ops [] [] 1 Hne).
Defined.
